(** * PDF-Metadata-Updater: a shallow embedding of [src/PDF-Metadata-Updater.py]

    The script resolves two metadata values (Producer, Creator) through a
    [ConfigParser] object backed by [config/config.ini], then rewrites every
    [*.pdf] entry of [input/] into [output/] with those two values attached.

    Conventions of the embedding.
    - Python [str] values are [string]s (byte strings; non-ASCII text is its
      UTF-8 encoding).  [str.lower] is modelled on the ASCII letters; in
      Unicode too the only characters whose lower case is ['n'] are ['n']
      and ['N'], so the comparison made at the confirmation prompt is
      unaffected.
    - The file system, the console and the single [ConfigParser] instance
      form an explicit [world]; every function of the script is a state
      transformer that either returns normally or raises an exception, in
      both cases together with the world reached so far.
    - The file system maps a path to what it holds.  The directory of a
      path that is opened for writing is taken to exist: the script creates
      its three folders before it opens anything.
    - An INI file is represented by the parser state it encodes: sections,
      lower-cased option names and the values as [read] delivers them.
      [read] strips the white space around a value, so the file that
      [config.write] leaves holds the parser's values stripped.  The lines
      of the operator hold no line terminator ([input] returns none).  The
      empty file is the INI file without sections.  The [DEFAULT] section
      is not modelled: the script never creates it.
    - [ConfigParser] is the interpolating parser: [set] validates the
      percent signs of a value and [get] expands [%%] and [%(name)s], as
      [BasicInterpolation] does.
    - PyPDF2 documents are a page list and an information dictionary.
      Pages are opaque: the page type and [merge_page] are parameters of
      the development. *)

From stdpp Require Import base option list gmap strings fin_maps.
From Stdlib Require Import Ascii String.

Set Default Proof Using "Type".
Local Open Scope string_scope.

(* Character and string comparisons stay folded under [simpl]. *)
#[local] Arguments Ascii.eqb : simpl never.
#[local] Arguments String.eqb : simpl never.

(** ** Python string operations used by the script *)

Module PyStr.

(** [c.lower()] for one character: [A]..[Z] are moved to [a]..[z]. *)
Definition lower_char (c : ascii) : ascii :=
  let n := nat_of_ascii c in
  if (65 <=? n)%nat && (n <=? 90)%nat then ascii_of_nat (n + 32) else c.

(** [s.lower()] *)
Fixpoint lower (s : string) : string :=
  match s with
  | EmptyString => EmptyString
  | String c r => String (lower_char c) (lower r)
  end.

(** [s.endswith(suffix)]: [s] is [suffix], or the tail of [s] ends with it. *)
Fixpoint endswith (s suffix : string) : bool :=
  String.eqb s suffix ||
  match s with
  | EmptyString => false
  | String _ r => endswith r suffix
  end.

(** [s.startswith(p)] *)
Definition startswith (s p : string) : bool := String.prefix p s.

(** [c in s] *)
Fixpoint contains (c : ascii) (s : string) : bool :=
  match s with
  | EmptyString => false
  | String d r => Ascii.eqb c d || contains c r
  end.

(** [bool(s)]: a string is truthy when it is not empty. *)
Definition truthy (s : string) : bool :=
  match s with EmptyString => false | String _ _ => true end.

(** [os.path.join(a, b)] on POSIX: an absolute [b] discards [a]; otherwise
    the two are glued with exactly one separator. *)
Definition path_join (a b : string) : string :=
  if startswith b "/" then b
  else if String.eqb a "" || endswith a "/" then a +:+ b
  else a +:+ "/" +:+ b.

(** [os.path.basename(p)]: what follows the last ['/'] of [p]. *)
Fixpoint basename (p : string) : string :=
  match p with
  | EmptyString => EmptyString
  | String c r => if contains "/" r then basename r
                  else if Ascii.eqb c "/" then r else p
  end.

(** One-byte white space of [str.isspace]: tab to carriage return, the
    four separators [0x1c]-[0x1f], and the blank. *)
Definition is_space1 (a : ascii) : bool :=
  let n := nat_of_ascii a in
  ((9 <=? n)%nat && (n <=? 13)%nat) || ((28 <=? n)%nat && (n <=? 32)%nat).

(** Two-byte white space in UTF-8: U+0085 and U+00A0. *)
Definition is_space2 (a b : ascii) : bool :=
  let n := nat_of_ascii a in
  let m := nat_of_ascii b in
  (n =? 194)%nat && ((m =? 133)%nat || (m =? 160)%nat).

(** Three-byte white space in UTF-8: U+1680, U+2000 to U+200A, U+2028,
    U+2029, U+202F, U+205F and U+3000. *)
Definition is_space3 (a b c : ascii) : bool :=
  let n := nat_of_ascii a in
  let m := nat_of_ascii b in
  let k := nat_of_ascii c in
  ((n =? 225)%nat && (m =? 154)%nat && (k =? 128)%nat) ||
  ((n =? 226)%nat && (m =? 128)%nat &&
   (((128 <=? k)%nat && (k <=? 138)%nat) ||
    (k =? 168)%nat || (k =? 169)%nat || (k =? 175)%nat)) ||
  ((n =? 226)%nat && (m =? 129)%nat && (k =? 159)%nat) ||
  ((n =? 227)%nat && (m =? 128)%nat && (k =? 128)%nat).

(** [s.lstrip()] *)
Fixpoint lstrip (s : string) : string :=
  match s with
  | EmptyString => EmptyString
  | String a r =>
      if is_space1 a then lstrip r
      else
        match r with
        | String b r2 =>
            if is_space2 a b then lstrip r2
            else
              match r2 with
              | String c r3 => if is_space3 a b c then lstrip r3 else s
              | EmptyString => s
              end
        | EmptyString => s
        end
  end.

(** [s.isspace() or s == ""]: [s] is made of white space only. *)
Fixpoint all_space (s : string) : bool :=
  match s with
  | EmptyString => true
  | String a r =>
      if is_space1 a then all_space r
      else
        match r with
        | String b r2 =>
            if is_space2 a b then all_space r2
            else
              match r2 with
              | String c r3 => is_space3 a b c && all_space r3
              | EmptyString => false
              end
        | EmptyString => false
        end
  end.

(** [s.rstrip()]: the string is cut where only white space follows. *)
Fixpoint rstrip (s : string) : string :=
  match s with
  | EmptyString => EmptyString
  | String a r => if all_space s then EmptyString else String a (rstrip r)
  end.

(** [s.strip()] *)
Definition strip (s : string) : string := rstrip (lstrip s).

End PyStr.
Import PyStr.

(** ** Exceptions and results *)

(** The Python exceptions the modelled code paths can raise. *)
Inductive exn : Set :=
  | TypeError                        (* [open] applied to a file object *)
  | ValueError                       (* [set]: invalid interpolation syntax *)
  | EOFError                         (* [input] at end of input *)
  | IndexError                       (* list index out of range *)
  | FileNotFoundError
  | FileExistsError
  | IsADirectoryError
  | NoSectionError
  | DuplicateSectionError
  | ParsingError                     (* [read] of a file that is not INI text *)
  | InterpolationSyntaxError
  | InterpolationMissingOptionError
  | InterpolationDepthError
  | PdfReadError.

(** A pure library call: its value, or the exception it raises. *)
Inductive result (A : Type) : Type :=
  | Ok (a : A)
  | Err (e : exn).
Arguments Ok {A} a.
Arguments Err {A} e.

Definition result_bind {A B} (r : result A) (k : A -> result B) : result B :=
  match r with
  | Ok a => k a
  | Err e => Err e
  end.

(** ** The [configparser.ConfigParser] object *)

Module ConfigParser.

(** Options of one section, keyed by the lower-cased option name. *)
Abbreviation options := (gmap string string).
(** Parser state: section name to options.  Section names keep their case. *)
Abbreviation parser := (gmap string (gmap string string)).

(** [optionxform]: option names are lower-cased on every access. *)
Definition optionxform (key : string) : string := lower key.

(** [MAX_INTERPOLATION_DEPTH] *)
Definition MAX_INTERPOLATION_DEPTH : nat := 10.

(** [value.replace('%%', '')]: escaped percent signs are dropped, scanning
    from the left without overlap. *)
Fixpoint drop_escaped (v : string) : string :=
  match v with
  | EmptyString => EmptyString
  | String c r =>
      match r with
      | String d r' =>
          if Ascii.eqb c "%" && Ascii.eqb d "%" then drop_escaped r'
          else String c (drop_escaped r)
      | EmptyString => String c EmptyString
      end
  end.

(** What is left of a scan of [_KEYCRE = %\(([^)]+)\)s]. [None]: outside a
    reference; [Some n]: inside [%(...], [n] characters of the name read. *)
Abbreviation scan_state := (option nat).

(** [tmp = _KEYCRE.sub('', tmp); '%' in tmp]: after the well-formed
    references are removed no percent sign may remain.  A percent sign
    remains exactly when it does not start a reference (a percent sign
    inside a reference name is removed with the reference), so one pass
    decides it. [refs_only st s] is [true] when no percent sign remains. *)
Fixpoint refs_only (st : scan_state) (s : string) : bool :=
  match s with
  | EmptyString => match st with None => true | Some _ => false end
  | String c r =>
      match st with
      | None =>
          if Ascii.eqb c "%" then
            match r with
            | String d r' => Ascii.eqb d "(" && refs_only (Some 0) r'
            | EmptyString => false
            end
          else refs_only None r
      | Some n =>
          if Ascii.eqb c ")" then
            match n, r with
            | S _, String d r' => Ascii.eqb d "s" && refs_only None r'
            | _, _ => false
            end
          else refs_only (Some (S n)) r
      end
  end.

(** [BasicInterpolation.before_set]: [True] when the value is accepted. *)
Definition before_set (value : string) : bool :=
  refs_only None (drop_escaped value).

(** The loop of [BasicInterpolation._interpolate_some] over [rest], with
    the recursive call for a referenced value passed as [deeper].
    [name = Some acc] while the characters of a reference name are read
    ([_KEYCRE.match(rest)] fails, and the syntax error is raised, when the
    name is empty or is not closed by [")s"]). *)
Fixpoint interpolate_loop (deeper : string -> result string)
    (vars : options) (name : option string) (rest : string) : result string :=
  match rest with
  | EmptyString =>
      match name with None => Ok "" | Some _ => Err InterpolationSyntaxError end
  | String c r =>
      match name with
      | None =>
          if Ascii.eqb c "%" then
            match r with
            | String d r' =>
                if Ascii.eqb d "%" then
                  result_bind (interpolate_loop deeper vars None r')
                    (fun out => Ok (String "%" out))
                else if Ascii.eqb d "(" then
                  interpolate_loop deeper vars (Some "") r'
                else Err InterpolationSyntaxError
            | EmptyString => Err InterpolationSyntaxError
            end
          else
            result_bind (interpolate_loop deeper vars None r)
              (fun out => Ok (String c out))
      | Some acc =>
          if Ascii.eqb c ")" then
            match acc, r with
            | String _ _, String d r' =>
                if Ascii.eqb d "s" then
                  match vars !! optionxform acc with
                  | None => Err InterpolationMissingOptionError
                  | Some v =>
                      result_bind
                        (if contains "%" v then deeper v else Ok v)
                        (fun expanded =>
                           result_bind (interpolate_loop deeper vars None r')
                             (fun out => Ok (expanded +:+ out)))
                  end
                else Err InterpolationSyntaxError
            | _, _ => Err InterpolationSyntaxError
            end
          else interpolate_loop deeper vars (Some (acc +:+ String c "")) r
      end
  end.

(** [_interpolate_some(..., depth)] with [fuel = MAX_INTERPOLATION_DEPTH +
    1 - depth]: entering a level beyond the maximum raises
    [InterpolationDepthError]. *)
Fixpoint interpolate_some (fuel : nat) (vars : options) (rest : string)
    : result string :=
  match fuel with
  | O => Err InterpolationDepthError
  | S fuel' => interpolate_loop (interpolate_some fuel' vars) vars None rest
  end.

(** [BasicInterpolation.before_get] *)
Definition before_get (vars : options) (value : string) : result string :=
  interpolate_some MAX_INTERPOLATION_DEPTH vars value.

(** [config.get(section, key, fallback=fallback)]: the fallback covers a
    missing section or option only; interpolation errors are raised. *)
Definition get (config : parser) (section key fallback : string)
    : result string :=
  match config !! section with
  | None => Ok fallback
  | Some d =>
      match d !! optionxform key with
      | None => Ok fallback
      | Some value => before_get d value
      end
  end.

(** [config.get(section, key, raw=True)] without fallback, as an
    [option]: the stored text of a value. *)
Definition raw (config : parser) (section key : string) : option string :=
  d ← config !! section; d !! optionxform key.

(** [config.set(section, key, value)]: the value is validated first,
    then the section must exist. *)
Definition set (config : parser) (section key value : string)
    : result parser :=
  if before_set value then
    match config !! section with
    | None => Err NoSectionError
    | Some d => Ok (<[section := <[optionxform key := value]> d]> config)
    end
  else Err ValueError.

(** [config.add_section(section)] *)
Definition add_section (config : parser) (section : string) : result parser :=
  match config !! section with
  | Some _ => Err DuplicateSectionError
  | None => Ok (<[section := ∅]> config)
  end.

(** What [config.write(fp)] leaves in the file, as a later [read] delivers
    it: every section with its options; the text of a value comes back
    without the white space around it. *)
Definition written (config : parser) : parser :=
  (fun options : gmap string string => strip <$> options) <$> config.

(** [config._read(fp, ...)]: the sections of the file are merged into the
    parser; an option of the file replaces the option already held. *)
Definition merge (file config : parser) : parser :=
  union_with (fun fresh held => Some (fresh ∪ held)) file config.

End ConfigParser.

(** ** The world the script runs in *)

Section World.

(** A PyPDF2 page object; its structure is PyPDF2's business. *)
Context {page : Type}.

(** A PDF document as the script sees it: its pages and the entries of its
    document information dictionary ([/Producer], [/Creator], ...). *)
Record pdf : Type := Pdf {
  pages : list page;
  info : gmap string string
}.

(** What a path of the file system holds. *)
Inductive node : Type :=
  | FDir                                   (* a directory *)
  | FIni (content : ConfigParser.parser)   (* INI text, as parsed *)
  | FPdf (doc : pdf)                       (* a PDF file PyPDF2 can read *)
  | FOther.                                (* any other file *)

(** The empty file, left by [open(path, 'w')] before anything is written. *)
Definition empty_file : node := FIni ∅.

Record world : Type := World {
  fs : gmap string node;            (* the file system, by path *)
  config : ConfigParser.parser;     (* the [ConfigParser] instance of the run *)
  stdin : list string;              (* the lines the operator will type *)
  stdout : list string              (* what has been printed, oldest first *)
}.

Definition with_fs (w : world) (f : gmap string node) : world :=
  World f (config w) (stdin w) (stdout w).
Definition with_config (w : world) (c : ConfigParser.parser) : world :=
  World (fs w) c (stdin w) (stdout w).
Definition with_stdin (w : world) (i : list string) : world :=
  World (fs w) (config w) i (stdout w).
Definition with_stdout (w : world) (o : list string) : world :=
  World (fs w) (config w) (stdin w) o.

(** How a statement ends: normally with a value, or by a raised exception;
    the effects made until then stay in the world either way. *)
Inductive outcome (A : Type) : Type :=
  | Normal (a : A) (w : world)
  | Raised (e : exn) (w : world).
Arguments Normal {A} a w.
Arguments Raised {A} e w.

Definition M (A : Type) : Type := world -> outcome A.

Definition ret {A} (a : A) : M A := fun w => Normal a w.

Definition bind {A B} (m : M A) (k : A -> M B) : M B :=
  fun w =>
    match m w with
    | Normal a w' => k a w'
    | Raised e w' => Raised e w'
    end.

Definition raise {A} (e : exn) : M A := fun w => Raised e w.

(** A pure library call made in the current world. *)
Definition lift {A} (r : result A) : M A :=
  match r with
  | Ok a => ret a
  | Err e => raise e
  end.

(** The world a statement stopped in. *)
Definition final {A} (o : outcome A) : world :=
  match o with
  | Normal _ w => w
  | Raised _ w => w
  end.

End World.

Arguments pdf : clear implicits.
Arguments node : clear implicits.
Arguments world : clear implicits.
Arguments outcome : clear implicits.
Arguments M : clear implicits.
Arguments Normal {page A} a w.
Arguments Raised {page A} e w.

Declare Scope py_scope.
Delimit Scope py_scope with py.
Notation "x <- m ;; k" := (bind m (fun x => k))
  (at level 20, m at level 99, k at level 200, only parsing) : py_scope.
Notation "m ;; k" := (bind m (fun _ => k))
  (at level 100, k at level 200, only parsing, right associativity) : py_scope.
Local Open Scope py_scope.

(** ** Built-ins and library calls, as statements *)

Section Builtins.

Context {page : Type}.

(** [print(s)] *)
Definition print (s : string) : M page unit :=
  fun w => Normal tt (with_stdout w (stdout w ++ [s])).

(** [input(prompt)]: the prompt is shown, then one line is read without
    its newline; [EOFError] when the operator has nothing more to say. *)
Definition input (prompt : string) : M page string :=
  fun w =>
    let w := with_stdout w (stdout w ++ [prompt]) in
    match stdin w with
    | [] => Raised EOFError w
    | line :: rest => Normal line (with_stdin w rest)
    end.

(** [config.get(section, key, fallback=fallback)] on the instance of the
    run. *)
Definition config_get (section key fallback : string) : M page string :=
  fun w => lift (ConfigParser.get (config w) section key fallback) w.

(** [config.set(section, key, value)] *)
Definition config_set (section key value : string) : M page unit :=
  fun w =>
    match ConfigParser.set (config w) section key value with
    | Ok c => Normal tt (with_config w c)
    | Err e => Raised e w
    end.

(** [config.add_section(section)] *)
Definition config_add_section (section : string) : M page unit :=
  fun w =>
    match ConfigParser.add_section (config w) section with
    | Ok c => Normal tt (with_config w c)
    | Err e => Raised e w
    end.

(** [config.read(filename)]: a file that cannot be opened is skipped in
    silence; a file that is not INI text raises. *)
Definition config_read (filename : string) : M page unit :=
  fun w =>
    match fs w !! filename with
    | None | Some FDir => Normal tt w
    | Some (FIni content) =>
        Normal tt (with_config w (ConfigParser.merge content (config w)))
    | Some (FPdf _) | Some FOther => Raised ParsingError w
    end.

(** The value bound to a local name that first holds a path and is later
    rebound, by [with open(name, 'w') as name], to the file object. *)
Inductive fileref : Set :=
  | Path (p : string)
  | FileObject (p : string).

(** [open(file, 'w')] and [open(file, 'wb')]: [file] must be a path, and
    not the path of a directory; the file is created or truncated.  The
    result is the file object, named by its path. *)
Definition open_w (file : fileref) : M page string :=
  fun w =>
    match file with
    | FileObject _ => Raised TypeError w
    | Path p =>
        match fs w !! p with
        | Some FDir => Raised IsADirectoryError w
        | _ => Normal p (with_fs w (<[p := empty_file]> (fs w)))
        end
    end.

(** [open(path, 'rb')] *)
Definition open_rb (path : string) : M page unit :=
  fun w =>
    match fs w !! path with
    | None => Raised FileNotFoundError w
    | Some FDir => Raised IsADirectoryError w
    | Some _ => Normal tt w
    end.

(** [config.write(fp)]: the whole parser state replaces the content; what
    the file then holds is [ConfigParser.written]. *)
Definition config_write (fp : string) : M page unit :=
  fun w =>
    Normal tt (with_fs w (<[fp := FIni (ConfigParser.written (config w))]> (fs w))).

(** [os.makedirs(path, exist_ok=True)] *)
Definition makedirs (path : string) : M page unit :=
  fun w =>
    match fs w !! path with
    | None => Normal tt (with_fs w (<[path := FDir]> (fs w)))
    | Some FDir => Normal tt w
    | Some _ => Raised FileExistsError w
    end.

(** [os.path.isfile(path)] *)
Definition isfile (path : string) : M page bool :=
  fun w =>
    Normal (match fs w !! path with
            | None | Some FDir => false
            | Some _ => true
            end) w.

(** [PyPDF2.PdfReader(path)]: the document of the file. *)
Definition PdfReader (path : string) : M page (pdf page) :=
  fun w =>
    match fs w !! path with
    | None => Raised FileNotFoundError w
    | Some FDir => Raised IsADirectoryError w
    | Some (FPdf doc) => Normal doc w
    | Some _ => Raised PdfReadError w
    end.

(** [PyPDF2.PdfWriter()]: no page yet, and PyPDF2's own producer entry. *)
Definition PdfWriter : pdf page := Pdf [] {["/Producer" := "PyPDF2"]}.

(** [updater.add_page(page)] *)
Definition add_page (updater : pdf page) (p : page) : pdf page :=
  Pdf (pages updater ++ [p]) (info updater).

(** [updater.add_metadata(infos)]: the given entries replace the held
    ones. *)
Definition add_metadata (updater : pdf page) (infos : gmap string string)
    : pdf page :=
  Pdf (pages updater) (infos ∪ info updater).

(** [updater.write(output_file)] *)
Definition write_pdf (output_file : string) (updater : pdf page) : M page unit :=
  fun w => Normal tt (with_fs w (<[output_file := FPdf updater]> (fs w))).

(** [seq[i]] for a Python list. *)
Definition index {A} (l : list A) (i : nat) : M page A :=
  match l !! i with
  | Some a => ret a
  | None => raise IndexError
  end.

End Builtins.

(** ** The script *)

Section Script.

Context {page : Type}.

(** [page.merge_page(page2)] of PyPDF2: [page] overlaid with [page2]. *)
Variable merge_page : page -> page -> page.

(** [create_folders()]; [root] is the directory above the script's own,
    [os.path.abspath(os.path.join(os.path.dirname(__file__), '..'))]. *)
Definition create_folders (root : string) : M page (string * string * string) :=
  let output_folder := path_join root "output" in
  let input_folder := path_join root "input" in
  let config_folder := path_join root "config" in
  makedirs output_folder ;;
  makedirs input_folder ;;
  makedirs config_folder ;;
  ret (output_folder, input_folder, config_folder).

(** [create_config(config_file, config)] *)
Definition create_config (config_file : string) : M page unit :=
  config_add_section "Metadata" ;;
  fp <- open_w (Path config_file) ;;
  config_write fp.

(** [update_config(config_file, config)].  The local name [config_file]
    holds the path until a [with open(config_file, 'w') as config_file]
    statement rebinds it to the file object; each of the two blocks hands
    the binding it ends with to what follows. *)
Definition update_config (config_file : string) : M page unit :=
  config_read config_file ;;
  producer <- config_get "Metadata" "Producer" "" ;;
  creator <- config_get "Metadata" "Creator" "" ;;
  config_file <-
    (if truthy producer then
       print "Existing metadata value found in the config file:" ;;
       shown <- config_get "Metadata" "Producer" "" ;;
       print ("Producer: " +:+ shown) ;;
       answer <- input "Do you want to use this value? (y/n): " ;;
       let confirm := lower answer in
       if String.eqb confirm "n" then
         producer <- input "Enter the value for Producer: " ;;
         config_set "Metadata" "Producer" producer ;;
         fp <- open_w (Path config_file) ;;
         config_write fp ;;
         print "Metadata updated" ;;
         ret (FileObject fp)
       else
         print "Using existing metadata value." ;;
         ret (Path config_file)
     else
       producer <- input "Enter the value for Producer: " ;;
       config_set "Metadata" "Producer" producer ;;
       fp <- open_w (Path config_file) ;;
       config_write fp ;;
       print "Metadata added to config" ;;
       ret (FileObject fp)) ;;
  config_file <-
    (if truthy creator then
       print "Existing metadata value found in the config file:" ;;
       shown <- config_get "Metadata" "Creator" "" ;;
       print ("Creator: " +:+ shown) ;;
       answer <- input "Do you want to use this value? (y/n): " ;;
       let confirm := lower answer in
       if String.eqb confirm "n" then
         creator <- input "Enter the value for Creator: " ;;
         config_set "Metadata" "Creator" creator ;;
         fp <- open_w config_file ;;
         config_write fp ;;
         print "Metadata updated" ;;
         ret (FileObject fp)
       else
         print "Using existing metadata value." ;;
         ret config_file
     else
       creator <- input "Enter the value for Creator: " ;;
       config_set "Metadata" "Creator" creator ;;
       fp <- open_w config_file ;;
       config_write fp ;;
       print "Metadata added to config" ;;
       ret (FileObject fp)) ;;
  ret tt.

(** The two blocks of [update_config] (lines 93-110 and 112-129) are one
    block, written for ["Producer"] and for ["Creator"].  [resolve_value]
    is that block as a function of the key; [current] is the value read at
    the top of the function and [config_file] the binding of the local
    name when the block starts.  [update_config_blocks] below shows that
    [update_config] is the two instances in sequence. *)
Definition resolve_value (key current : string) (config_file : fileref)
    : M page fileref :=
  if truthy current then
    print "Existing metadata value found in the config file:" ;;
    shown <- config_get "Metadata" key "" ;;
    print (key +:+ ": " +:+ shown) ;;
    answer <- input "Do you want to use this value? (y/n): " ;;
    let confirm := lower answer in
    if String.eqb confirm "n" then
      value <- input ("Enter the value for " +:+ key +:+ ": ") ;;
      config_set "Metadata" key value ;;
      fp <- open_w config_file ;;
      config_write fp ;;
      print "Metadata updated" ;;
      ret (FileObject fp)
    else
      print "Using existing metadata value." ;;
      ret config_file
  else
    value <- input ("Enter the value for " +:+ key +:+ ": ") ;;
    config_set "Metadata" key value ;;
    fp <- open_w config_file ;;
    config_write fp ;;
    print "Metadata added to config" ;;
    ret (FileObject fp).

(** The [input] calls of one block, read off the lines that wait on the
    standard input: a block whose value is set reads the answer at the
    confirmation prompt, and a block whose value is unset, or whose answer
    declines, reads one line at the prompt [Enter the value for ...].
    [value_line] is that last call: the line typed there and the lines
    left.  [block_lines] pairs the line typed at the value prompt of the
    block, if the block comes to it, with the lines left for what
    follows. *)
Definition value_line (lines : list string) : list string * list string :=
  match lines with
  | [] => ([], [])
  | value :: rest => ([value], rest)
  end.

Definition block_lines (current : string) (lines : list string)
    : list string * list string :=
  if truthy current then
    match lines with
    | [] => ([], [])
    | answer :: rest =>
        if String.eqb (lower answer) "n" then value_line rest else ([], rest)
    end
  else value_line lines.

(** The lines that a run of [update_config] reads at its prompts [Enter
    the value for ...]: those of the Producer block, then those of the
    Creator block, with the values that the first statements of the
    function read.  [resolve_value_reads] below shows that a block that
    ends normally has read its lines in this way. *)
Definition value_lines (config_file : string) (w : world page)
    : list string :=
  match config_read config_file w with
  | Normal _ w0 =>
      match ConfigParser.get (config w0) "Metadata" "Producer" "",
            ConfigParser.get (config w0) "Metadata" "Creator" "" with
      | Ok producer, Ok creator =>
          let typed1 := block_lines producer (stdin w0) in
          let typed2 := block_lines creator (snd typed1) in
          fst typed1 ++ fst typed2
      | _, _ => []
      end
  | Raised _ _ => []
  end.

(** The page loop of [process_pdf] (lines 148-151) over the remaining page
    numbers.  [pdf2] is the page list of the first reader, whose page is
    overlaid in place with the same-numbered page of a second reader of
    the same file, and then added to the writer. *)
Fixpoint copy_pages (original_file_path : string) (pdf2 : list page)
    (page_nums : list nat) (updater : pdf page) : M page (pdf page) :=
  match page_nums with
  | [] => ret updater
  | page_num :: rest =>
      page1 <- index pdf2 page_num ;;
      again <- PdfReader original_file_path ;;
      page2 <- index (pages again) page_num ;;
      let merged := merge_page page1 page2 in
      copy_pages original_file_path (<[page_num := merged]> pdf2) rest
        (add_page updater merged)
  end.

(** [process_pdf(original_file_path, output_folder, config)] *)
Definition process_pdf (original_file_path output_folder : string)
    : M page unit :=
  let updater := PdfWriter in
  open_rb original_file_path ;;
  pdf2 <- PdfReader original_file_path ;;
  updater <- copy_pages original_file_path (pages pdf2)
               (seq 0 (List.length (pages pdf2))) updater ;;
  producer <- config_get "Metadata" "Producer" "" ;;
  creator <- config_get "Metadata" "Creator" "" ;;
  let updater :=
    add_metadata updater {["/Producer" := producer; "/Creator" := creator]} in
  let output_file_path :=
    path_join output_folder (basename original_file_path) in
  output_file <- open_w (Path output_file_path) ;;
  write_pdf output_file updater.

(** The loop of the main program (lines 188-191) over the entries that
    [os.listdir(input_folder)] returned, in the order it returned them. *)
Fixpoint main_loop (input_folder output_folder : string)
    (entries : list string) : M page unit :=
  match entries with
  | [] => ret tt
  | original_file :: rest =>
      (if endswith original_file ".pdf" then
         let original_file_path := path_join input_folder original_file in
         process_pdf original_file_path output_folder
       else ret tt) ;;
      main_loop input_folder output_folder rest
  end.

(** [config = ConfigParser()] *)
Definition new_config : M page unit := fun w => Normal tt (with_config w ∅).

(** The main program (lines 176-191). [listdir] is what
    [os.listdir(input_folder)] answers. *)
Definition main (root : string) (listdir : list string) : M page unit :=
  folders <- create_folders root ;;
  let '(output_folder, input_folder, config_folder) := folders in
  new_config ;;
  let config_file := path_join config_folder "config.ini" in
  present <- isfile config_file ;;
  (if negb present then create_config config_file else ret tt) ;;
  update_config config_file ;;
  main_loop input_folder output_folder listdir.

(** The statements of the main program before its loop (lines 176-185),
    on their own; [main_ends_as_its_loop] below relates them to [main]. *)
Definition main_setup (root : string) : M page unit :=
  folders <- create_folders root ;;
  let '(output_folder, input_folder, config_folder) := folders in
  new_config ;;
  let config_file := path_join config_folder "config.ini" in
  present <- isfile config_file ;;
  (if negb present then create_config config_file else ret tt) ;;
  update_config config_file.

(** *** The batch loop in the words of the specification

    "For each file in the input folder with a [.pdf] suffix": the entries
    with the suffix are selected, and each selected entry is processed. *)
Definition has_pdf_suffix (name : string) : Prop :=
  exists stem : string, name = stem +:+ ".pdf".

Fixpoint process_each (input_folder output_folder : string)
    (selected : list string) : M page unit :=
  match selected with
  | [] => ret tt
  | name :: rest =>
      process_pdf (path_join input_folder name) output_folder ;;
      process_each input_folder output_folder rest
  end.

End Script.

(** ** Example worlds *)

Module Demo.

(** A concrete page for the examples: the list of its content streams.
    The overlay draws the streams of the second page after those of the
    first. *)
Definition layers : Type := list string.
Definition overlay (p q : layers) : layers := (p ++ q)%list.

Definition root : string := "/app".
Definition config_ini : string := "/app/config/config.ini".

(** The parser state of a [config.ini] with the given options. *)
Definition metadata (options : gmap string string) : ConfigParser.parser :=
  {["Metadata" := options]}.

(** A world whose only file is [config.ini], with a fresh parser. *)
Definition configured (options : gmap string string) (lines : list string)
    : world layers :=
  World {[config_ini := FIni (metadata options)]} ∅ lines [].

(** No configuration file yet; the operator has two values ready. *)
Definition first_run : world layers := World ∅ ∅ ["P"; "C"] [].

(** Producer is stored; the operator accepts it and leaves Creator
    empty. *)
Definition accepts_then_empty : world layers :=
  configured {["producer" := "X"]} ["y"; ""].

(** Both values are stored and the operator replaces both. *)
Definition replaces_both : world layers :=
  configured {["producer" := "X"; "creator" := "Y"]} ["n"; "P2"; "n"; "C2"].

(** Only Creator is stored; the operator enters a Producer and replaces
    the Creator. *)
Definition enters_then_replaces : world layers :=
  configured {["creator" := "Y"]} ["P"; "N"; "C2"].

(** Both values are stored; the operator answers the first confirmation
    prompt with ["no"] and the second with some text. *)
Definition answers_no : world layers :=
  configured {["producer" := "X"; "creator" := "Y"]} ["no"; "maybe"].

(** The input folder of the specification's example: a two-page [a.pdf]
    and [notes.txt]; an older [a.pdf] is already in the output folder.
    Producer is resolved to ["X"], Creator is not stored. *)
Definition a_pdf : pdf layers :=
  Pdf [["page one"]; ["page two"]] {["/Producer" := "Scanner"]}.

Definition batch : world layers :=
  World {["/app/input/a.pdf" := FPdf a_pdf;
          "/app/input/notes.txt" := FOther;
          "/app/output/a.pdf" := FPdf (Pdf [] ∅)]}
    (metadata {["producer" := "X"]}) [] [].

(** The same configuration values in another world: a different [a.pdf],
    an empty output folder, one more option in the parser. *)
Definition other_batch : world layers :=
  World {["/app/input/a.pdf" := FPdf (Pdf [["cover"]] ∅)]}
    (metadata {["producer" := "X"; "comment" := "second run"]}) [] ["hello"].

(** A complete run: both values are stored and the operator accepts them;
    the input folder holds [a.pdf] and [notes.txt]. *)
Definition whole_run : world layers :=
  World {[config_ini := FIni (metadata {["producer" := "X"; "creator" := "Y"]});
          "/app/input/a.pdf" := FPdf a_pdf;
          "/app/input/notes.txt" := FOther]}
    ∅ ["y"; ""] [].

(** A run whose input folder holds an entry with the suffix that is no
    PDF; both values are stored and the operator accepts them. *)
Definition broken : world layers :=
  World {[config_ini := FIni (metadata {["producer" := "X"; "creator" := "Y"]});
          "/app/input/a.pdf" := FPdf a_pdf;
          "/app/input/bad.pdf" := FOther;
          "/app/input/notes.txt" := FOther]}
    ∅ ["y"; "y"] [].

(** A configuration file with an empty [Metadata] section, as
    [create_config] leaves it; the operator has two values ready. *)
Definition fresh_section : world layers := configured ∅ ["P"; "C"].

(** Both values are stored; the operator accepts both, the second time by
    an empty line. *)
Definition accepts_both : world layers :=
  configured {["producer" := "X"; "creator" := "Y"]} ["y"; ""].

(** An empty configuration file: no section at all. *)
Definition empty_ini : world layers :=
  World {[config_ini := FIni ∅]} ∅ ["P"] [].

(** The operator types a value with a lone percent sign. *)
Definition types_percent : world layers := configured ∅ ["100%"].

(** Producer is stored and the operator has left. *)
Definition no_input : world layers := configured {["producer" := "X"]} [].



(** Producer is stored; the operator accepts it with the return key and
    enters a Creator. *)
Definition accepts_with_return : world layers :=
  configured {["producer" := "X"]} [""; "C"].

(** Producer is stored; the operator accepts it and enters a Creator that
    refers to itself. *)
Definition types_reference : world layers :=
  configured {["producer" := "X"]} ["y"; "%(creator)s"].

End Demo.

(** * Properties *)

(** ** Strings and paths *)

Section StringFacts.

Lemma lower_char_n (c : ascii) :
  lower_char c = "n"%char <-> c = "n"%char \/ c = "N"%char.
Proof.
  destruct c as [[] [] [] [] [] [] [] []]; vm_compute;
    (split; [intros H; try discriminate H; auto
            | intros [H | H]; try discriminate H; reflexivity]).
Qed.

(** Only ["n"] and ["N"] lower to ["n"]. *)
Lemma lower_is_n (s : string) : lower s = "n" <-> s = "n" \/ s = "N".
Proof.
  destruct s as [|c [|d r]]; simpl.
  - split; [discriminate | intros [H | H]; discriminate H].
  - split.
    + intros H. injection H as H. apply lower_char_n in H as [-> | ->]; auto.
    + intros [H | H]; injection H as ->; reflexivity.
  - split; [discriminate | intros [H | H]; discriminate H].
Qed.

Lemma confirm_declines (answer : string) :
  String.eqb (lower answer) "n" = true <-> answer = "n" \/ answer = "N".
Proof. rewrite String.eqb_eq. apply lower_is_n. Qed.

Lemma append_nil (s : string) : "" +:+ s = s.
Proof. reflexivity. Qed.

Lemma append_cons (c : ascii) (a b : string) :
  String c a +:+ b = String c (a +:+ b).
Proof. reflexivity. Qed.

Lemma append_assoc (a b c : string) : (a +:+ b) +:+ c = a +:+ (b +:+ c).
Proof.
  induction a as [|x a IH]; [reflexivity |].
  now rewrite !append_cons, IH.
Qed.

Lemma append_inv_head (p a b : string) : p +:+ a = p +:+ b -> a = b.
Proof.
  induction p as [|x p IH]; [now rewrite !append_nil |].
  rewrite !append_cons. intros H. injection H as H. auto.
Qed.

(** [endswith] is the suffix relation. *)
Lemma endswith_spec (s suffix : string) :
  endswith s suffix = true <-> exists stem, s = stem +:+ suffix.
Proof.
  induction s as [|c r IH]; cbn [endswith].
  - rewrite orb_false_r, String.eqb_eq. split.
    + intros <-. now exists "".
    + intros [[|x stem] H]; [now rewrite append_nil in H |].
      rewrite append_cons in H. discriminate H.
  - rewrite orb_true_iff, String.eqb_eq, IH. split.
    + intros [<- | [stem ->]]; [now exists "" | now exists (String c stem)].
    + intros [[|x stem] H]; [left; now rewrite append_nil in H |].
      rewrite append_cons in H. injection H as -> ->. right. now exists stem.
Qed.

Lemma contains_append (c : ascii) (a b : string) :
  contains c (a +:+ b) = contains c a || contains c b.
Proof.
  induction a as [|x a IH]; [reflexivity |].
  rewrite append_cons. simpl. now rewrite IH, orb_assoc.
Qed.

Lemma basename_plain (name : string) :
  contains "/" name = false -> basename name = name.
Proof.
  destruct name as [|c r]; simpl; [reflexivity |].
  intros [Hc Hr]%orb_false_iff. rewrite Hr.
  rewrite Ascii.eqb_sym, Hc. reflexivity.
Qed.

Lemma basename_after_slash (dir name : string) :
  contains "/" name = false -> basename (dir +:+ "/" +:+ name) = name.
Proof.
  intros Hn. induction dir as [|c dir IH].
  - rewrite append_nil, append_cons, append_nil. simpl. now rewrite Hn.
  - rewrite append_cons. simpl. rewrite contains_append, append_cons.
    simpl. now rewrite orb_true_r.
Qed.

Lemma startswith_slash (name : string) :
  contains "/" name = false -> startswith name "/" = false.
Proof.
  destruct name as [|c r]; [reflexivity |]. cbn [contains].
  intros [Hc _]%orb_false_iff. unfold startswith. cbn [String.prefix].
  destruct (Ascii.ascii_dec "/" c) as [<- | Hne]; [| reflexivity].
  now rewrite Ascii.eqb_refl in Hc.
Qed.

(** [path_join] puts a fixed prefix before a name without separator. *)
Lemma path_join_prefix (dir : string) :
  exists pre, forall name,
    contains "/" name = false -> path_join dir name = pre +:+ name.
Proof.
  unfold path_join.
  destruct (String.eqb dir "" || endswith dir "/") eqn:E.
  - exists dir. intros name Hn. now rewrite startswith_slash.
  - exists (dir +:+ "/"). intros name Hn.
    now rewrite startswith_slash, append_assoc.
Qed.

(** The listing name is recovered from the joined path: the output file
    gets the name of the input file. *)
Lemma basename_path_join (dir name : string) :
  contains "/" name = false -> basename (path_join dir name) = name.
Proof.
  intros Hn. unfold path_join. rewrite startswith_slash by exact Hn.
  destruct (String.eqb dir "") eqn:Ed; simpl.
  - apply String.eqb_eq in Ed as ->. rewrite append_nil.
    now apply basename_plain.
  - destruct (endswith dir "/") eqn:Es.
    + apply endswith_spec in Es as [stem ->].
      rewrite append_assoc. now apply basename_after_slash.
    + now apply basename_after_slash.
Qed.

End StringFacts.

(** ** Sequencing *)

Section MonadFacts.

Context {page : Type}.

Lemma bind_normal {A B} (m : M page A) (k : A -> M page B) w a w1 :
  m w = Normal a w1 -> bind m k w = k a w1.
Proof. unfold bind. now intros ->. Qed.

(** An exception raised by the first statement is raised by the sequence,
    in the world the first statement stopped in. *)
Lemma bind_raised {A B} (m : M page A) (k : A -> M page B) w e w1 :
  m w = Raised e w1 -> bind m k w = Raised e w1.
Proof. unfold bind. now intros ->. Qed.

Lemma bind_normal_inv {A B} (m : M page A) (k : A -> M page B) w b w2 :
  bind m k w = Normal b w2 ->
  exists a w1, m w = Normal a w1 /\ k a w1 = Normal b w2.
Proof.
  unfold bind. destruct (m w) as [a w1 | e w1]; [| discriminate].
  intros H. now exists a, w1.
Qed.

End MonadFacts.

(** ** Library calls, inverted *)

Section BuiltinFacts.

Context {page : Type}.
Implicit Types w : world page.

Lemma input_inv prompt w line w' :
  input prompt w = Normal line w' ->
  exists rest,
    stdin w = line :: rest /\
    w' = World (fs w) (config w) rest (stdout w ++ [prompt]).
Proof.
  unfold input. destruct w as [f c [|l i] o]; simpl; [discriminate |].
  intros [= -> <-]. now exists i.
Qed.

Lemma config_get_inv section key fallback w v w' :
  config_get section key fallback w = Normal v w' ->
  ConfigParser.get (config w) section key fallback = Ok v /\ w' = w.
Proof.
  unfold config_get.
  destruct (ConfigParser.get _ _ _ _) as [a | e]; simpl; [| discriminate].
  now intros [= -> <-].
Qed.

Lemma config_get_ok section key fallback w v :
  ConfigParser.get (config w) section key fallback = Ok v ->
  config_get section key fallback w = Normal v w.
Proof. unfold config_get. now intros ->. Qed.

Lemma set_inv (c : ConfigParser.parser) section key value c' :
  ConfigParser.set c section key value = Ok c' ->
  ConfigParser.before_set value = true /\
  exists d, c !! section = Some d /\
            c' = <[section := <[lower key := value]> d]> c.
Proof.
  unfold ConfigParser.set, ConfigParser.optionxform.
  destruct (ConfigParser.before_set value); [| discriminate].
  destruct (c !! section) as [d |]; [| discriminate].
  intros [= <-]. split; [reflexivity |]. now exists d.
Qed.

Lemma config_set_inv section key value w u w' :
  config_set section key value w = Normal u w' ->
  exists c', ConfigParser.set (config w) section key value = Ok c' /\
             w' = with_config w c'.
Proof.
  unfold config_set.
  destruct (ConfigParser.set _ _ _ _) as [c' | e]; [| discriminate].
  intros [= _ <-]. now exists c'.
Qed.

Lemma open_w_inv file w fp w' :
  open_w file w = Normal fp w' ->
  file = Path fp /\ fs w !! fp <> Some FDir /\
  w' = with_fs w (<[fp := empty_file]> (fs w)).
Proof.
  unfold open_w. destruct file as [p | p]; [| discriminate].
  destruct (fs w !! p) as [[] |] eqn:E; try discriminate;
    intros [= <- <-]; rewrite E; repeat split; discriminate.
Qed.

Lemma open_w_ok p w :
  fs w !! p <> Some FDir ->
  open_w (Path p) w = Normal p (with_fs w (<[p := empty_file]> (fs w))).
Proof.
  unfold open_w. intros H.
  destruct (fs w !! p) as [[] |]; try reflexivity. now destruct H.
Qed.

(** [open] refuses the file object a [with] statement left in the name. *)
Lemma open_w_file_object p w : open_w (FileObject p) w = Raised TypeError w.
Proof. reflexivity. Qed.

Lemma PdfReader_inv path w doc w' :
  PdfReader path w = Normal doc w' ->
  fs w !! path = Some (FPdf doc) /\ w' = w.
Proof.
  unfold PdfReader.
  destruct (fs w !! path) as [[] |]; try discriminate.
  now intros [= -> <-].
Qed.

Lemma PdfReader_ok path w doc :
  fs w !! path = Some (FPdf doc) -> PdfReader path w = Normal doc w.
Proof. unfold PdfReader. now intros ->. Qed.

(** A path that does not hold a readable PDF makes the reader raise, and
    nothing else happens. *)
Lemma PdfReader_fails path w :
  (forall doc, fs w !! path <> Some (FPdf doc)) ->
  exists e, PdfReader path w = Raised e w.
Proof.
  unfold PdfReader. intros H.
  destruct (fs w !! path) as [[| c | doc |] |]; eauto.
  now destruct (H doc).
Qed.

End BuiltinFacts.

(** ** The parser object *)

Section ParserFacts.

Implicit Types c : ConfigParser.parser.

(** A non-empty answer of [get] with the empty fallback comes from a
    stored, non-empty value. *)
Lemma get_truthy_raw c section key v :
  ConfigParser.get c section key "" = Ok v ->
  truthy v = true ->
  exists value, ConfigParser.raw c section key = Some value /\ value <> "".
Proof.
  unfold ConfigParser.get, ConfigParser.raw.
  destruct (c !! section) as [d |]; simpl; [| now intros [= <-]].
  destruct (d !! ConfigParser.optionxform key) as [value |];
    [| now intros [= <-]].
  intros Hget Hv. exists value. split; [reflexivity |].
  intros ->. cbv in Hget. injection Hget as <-. discriminate Hv.
Qed.

(** A key that is not stored reads as the fallback. *)
Lemma get_absent c section key fallback :
  ConfigParser.raw c section key = None ->
  ConfigParser.get c section key fallback = Ok fallback.
Proof.
  unfold ConfigParser.get, ConfigParser.raw.
  destruct (c !! section) as [d |]; simpl; [| reflexivity].
  now intros ->.
Qed.

(** A value without percent sign is its own interpolation. *)
Lemma interpolate_plain deeper (vars : gmap string string) (s : string) :
  contains "%" s = false ->
  ConfigParser.interpolate_loop deeper vars None s = Ok s.
Proof.
  induction s as [|a s IH]; cbn [contains ConfigParser.interpolate_loop];
    [reflexivity |].
  intros [Ha Hs]%orb_false_iff.
  rewrite Ascii.eqb_sym, Ha, (IH Hs). reflexivity.
Qed.

(** [get] answers a stored value without percent sign as it is stored. *)
Lemma get_plain c section key fallback v :
  ConfigParser.raw c section key = Some v ->
  contains "%" v = false ->
  ConfigParser.get c section key fallback = Ok v.
Proof.
  unfold ConfigParser.get, ConfigParser.raw.
  destruct (c !! section) as [d |]; simpl; [| discriminate].
  intros -> Hv. now apply interpolate_plain.
Qed.

Lemma raw_after_set c section key value d key' :
  c !! section = Some d ->
  ConfigParser.raw (<[section := <[lower key := value]> d]> c) section key' =
    if decide (lower key = lower key') then Some value
    else ConfigParser.raw c section key'.
Proof.
  intros Hd. unfold ConfigParser.raw, ConfigParser.optionxform.
  rewrite lookup_insert_eq, Hd. simpl.
  rewrite lookup_insert. reflexivity.
Qed.

Lemma truthy_nonempty (s : string) : truthy s = true -> s <> "".
Proof. now destruct s. Qed.

Lemma result_bind_inv {A B} (r : result A) (k : A -> result B) b :
  result_bind r k = Ok b -> exists a, r = Ok a /\ k a = Ok b.
Proof. destruct r as [a | e]; [| discriminate]. intros H. now exists a. Qed.

Lemma append_nonempty (a b : string) : a <> "" \/ b <> "" -> a +:+ b <> "".
Proof.
  destruct a as [| c a].
  - rewrite append_nil. now intros [H | H].
  - rewrite append_cons. discriminate.
Qed.

Lemma append_nonempty_inv (a b : string) :
  a +:+ b <> "" -> a <> "" \/ b <> "".
Proof.
  destruct a as [| c a]; [rewrite append_nil; auto | left; discriminate].
Qed.

(** Putting a non-empty text without percent sign under one option keeps
    every interpolation that succeeded, and keeps its result non-empty:
    a reference to the option now expands to the text, with no further
    level entered. *)
Lemma interpolate_loop_kept deeper deeper' (vars : gmap string string)
    (k v : string) :
  contains "%" v = false -> v <> "" ->
  (forall s e, deeper s = Ok e ->
     exists e', deeper' s = Ok e' /\ (e <> "" -> e' <> "")) ->
  forall n rest name p,
    String.length rest <= n ->
    ConfigParser.interpolate_loop deeper vars name rest = Ok p ->
    exists p',
      ConfigParser.interpolate_loop deeper' (<[k := v]> vars) name rest =
        Ok p' /\
      (p <> "" -> p' <> "").
Proof.
  intros Hplain Hv Hdeeper.
  induction n as [| n IH]; intros rest name p Hlen.
  - destruct rest; [| simpl in Hlen; lia].
    cbn [ConfigParser.interpolate_loop].
    destruct name; [discriminate |]. intros [= <-]. now exists "".
  - destruct rest as [| c r].
    { cbn [ConfigParser.interpolate_loop].
      destruct name; [discriminate |]. intros [= <-]. now exists "". }
    simpl in Hlen.
    cbn [ConfigParser.interpolate_loop]. destruct name as [acc |].
    + destruct (Ascii.eqb c ")").
      * destruct acc as [| a acc]; [discriminate |].
        destruct r as [| d r']; [discriminate |]. simpl in Hlen.
        destruct (Ascii.eqb d "s"); [| discriminate].
        destruct (vars !! ConfigParser.optionxform (String a acc))
          as [held |] eqn:Hheld; [| discriminate].
        intros (e & He & H)%result_bind_inv.
        apply result_bind_inv in H as (out & Hout & [= <-]).
        destruct (IH r' None out ltac:(lia) Hout) as (out' & Hout' & Hne).
        destruct (decide (k = ConfigParser.optionxform (String a acc)))
          as [<- | Hk].
        -- rewrite lookup_insert_eq, Hplain. cbn [result_bind].
           rewrite Hout'. cbn [result_bind].
           eexists. split; [reflexivity |].
           intros _. apply append_nonempty. now left.
        -- rewrite lookup_insert_ne, Hheld by exact Hk.
           assert (exists e',
                     (if contains "%" held then deeper' held else Ok held) =
                       Ok e' /\ (e <> "" -> e' <> ""))
             as (e' & He' & Hee).
           { destruct (contains "%" held); [now apply Hdeeper |].
             injection He as <-. now exists held. }
           rewrite He'. cbn [result_bind]. rewrite Hout'. cbn [result_bind].
           eexists. split; [reflexivity |].
           intros [H | H]%append_nonempty_inv; apply append_nonempty; auto.
      * intros H. apply (IH r _ p ltac:(lia) H).
    + destruct (Ascii.eqb c "%").
      * destruct r as [| d r']; [discriminate |]. simpl in Hlen.
        destruct (Ascii.eqb d "%").
        -- intros (out & Hout & [= <-])%result_bind_inv.
           destruct (IH r' None out ltac:(lia) Hout) as (out' & -> & _).
           cbn [result_bind]. eexists. split; [reflexivity | discriminate].
        -- destruct (Ascii.eqb d "("); [| discriminate].
           intros H. apply (IH r' _ p ltac:(lia) H).
      * intros (out & Hout & [= <-])%result_bind_inv.
        destruct (IH r None out ltac:(lia) Hout) as (out' & -> & _).
        cbn [result_bind]. eexists. split; [reflexivity | discriminate].
Qed.

Lemma interpolate_some_kept fuel (vars : gmap string string) (k v : string) :
  contains "%" v = false -> v <> "" ->
  forall value p,
    ConfigParser.interpolate_some fuel vars value = Ok p ->
    exists p',
      ConfigParser.interpolate_some fuel (<[k := v]> vars) value = Ok p' /\
      (p <> "" -> p' <> "").
Proof.
  intros Hplain Hv.
  induction fuel as [| fuel IH]; intros value p;
    cbn [ConfigParser.interpolate_some]; [discriminate |].
  intros H.
  now apply (interpolate_loop_kept _ _ _ _ _ Hplain Hv IH
               (String.length value) value None p).
Qed.

(** After [set] has stored a text without percent sign, the option
    resolves to that text. *)
Lemma get_after_set_same c key value c' :
  ConfigParser.set c "Metadata" key value = Ok c' ->
  contains "%" value = false ->
  ConfigParser.get c' "Metadata" key "" = Ok value.
Proof.
  intros (_ & d & Hd & ->)%set_inv Hplain.
  apply get_plain; [| exact Hplain].
  rewrite (raw_after_set _ _ _ _ _ _ Hd).
  now destruct (decide (lower key = lower key)).
Qed.

(** After [set] has stored a non-empty text without percent sign, an
    option that resolved to a non-empty string still does. *)
Lemma get_after_set_kept c key value c' key' p :
  ConfigParser.set c "Metadata" key value = Ok c' ->
  contains "%" value = false -> value <> "" ->
  ConfigParser.get c "Metadata" key' "" = Ok p -> p <> "" ->
  exists p', ConfigParser.get c' "Metadata" key' "" = Ok p' /\ p' <> "".
Proof.
  intros (_ & d & Hd & ->)%set_inv Hplain Hv.
  unfold ConfigParser.get. rewrite lookup_insert_eq, Hd.
  destruct (d !! ConfigParser.optionxform key') as [held |] eqn:Hheld;
    [| intros [= <-] Hp; now destruct Hp].
  intros Hget Hp. unfold ConfigParser.optionxform in *.
  destruct (decide (lower key = lower key')) as [<- | Hk].
  - rewrite lookup_insert_eq. exists value. split; [| exact Hv].
    now apply interpolate_plain.
  - rewrite lookup_insert_ne, Hheld by exact Hk.
    destruct (interpolate_some_kept _ _ (lower key) _ Hplain Hv _ _ Hget)
      as (p' & Hget' & Hne).
    exists p'. auto.
Qed.

End ParserFacts.

(** ** Configuration resolution *)

Section UpdateConfig.

Context {page : Type}.
Implicit Types w : world page.

(** [update_config] is its block, for the two keys in turn. *)
Lemma update_config_blocks (config_file : string) :
  update_config (page := page) config_file =
    (config_read config_file ;;
     producer <- config_get "Metadata" "Producer" "" ;;
     creator <- config_get "Metadata" "Creator" "" ;;
     config_file <- resolve_value "Producer" producer (Path config_file) ;;
     _ <- resolve_value "Creator" creator config_file ;;
     ret tt).
Proof. reflexivity. Qed.

(** The statements that ask for a value and store it (lines 98-102 and
    106-110, and their twins for ["Creator"]), when they end normally. *)
Lemma store_inv key msg config_file w cf' w' :
  (value <- input ("Enter the value for " +:+ key +:+ ": ") ;;
   config_set "Metadata" key value ;;
   fp <- open_w config_file ;;
   config_write fp ;;
   print msg ;;
   ret (FileObject fp)) w = Normal cf' w' ->
  exists p value rest c',
    config_file = Path p /\ cf' = FileObject p /\
    stdin w = value :: rest /\
    ConfigParser.set (config w) "Metadata" key value = Ok c' /\
    fs w' = <[p := FIni (ConfigParser.written c')]> (fs w) /\ config w' = c' /\ stdin w' = rest.
Proof.
  intros H.
  apply bind_normal_inv in H as (value & w1 & Hin & H).
  apply bind_normal_inv in H as (u & w2 & Hset & H).
  apply bind_normal_inv in H as (fp & w3 & Hopen & H).
  apply input_inv in Hin as (rest & Hstdin & ->).
  apply config_set_inv in Hset as (c' & Hset & ->).
  apply open_w_inv in Hopen as (-> & _ & ->).
  cbv [bind config_write print ret] in H. injection H as <- <-.
  exists fp, value, rest, c'. simpl.
  rewrite insert_insert_eq. repeat split; assumption.
Qed.



(** How a block of [update_config] ends normally: the value is kept and
    nothing is stored, or one line of the operator is stored under the
    key and the parser is written to the file. *)
Lemma resolve_value_inv key current config_file w cf' w' :
  resolve_value key current config_file w = Normal cf' w' ->
  (truthy current = true /\ cf' = config_file /\
   fs w' = fs w /\ config w' = config w /\
   exists answer, stdin w = answer :: stdin w' /\
                  String.eqb (lower answer) "n" = false)
  \/
  (exists p value c',
     config_file = Path p /\ cf' = FileObject p /\
     value ∈ stdin w /\
     ConfigParser.set (config w) "Metadata" key value = Ok c' /\
     fs w' = <[p := FIni (ConfigParser.written c')]> (fs w) /\ config w' = c').
Proof.
  unfold resolve_value. destruct (truthy current) eqn:Ht.
  - intros H.
    apply bind_normal_inv in H as (u1 & w1 & Hp1 & H).
    apply bind_normal_inv in H as (shown & w2 & Hget & H).
    apply bind_normal_inv in H as (u2 & w3 & Hp2 & H).
    apply bind_normal_inv in H as (answer & w4 & Hin & H).
    injection Hp1 as _ <-.
    apply config_get_inv in Hget as (_ & ->).
    injection Hp2 as _ <-.
    apply input_inv in Hin as (rest & Hstdin & ->). simpl in Hstdin.
    destruct (String.eqb (lower answer) "n") eqn:Hanswer.
    + right. apply store_inv in H
        as (p & value & rest' & c' & -> & -> & Hs & Hset & Hfs & Hc & _).
      simpl in Hs, Hset, Hfs. subst rest.
      exists p, value, c'. rewrite Hstdin.
      repeat split; try assumption. set_solver.
    + left. cbv [bind print ret] in H. injection H as <- <-. simpl.
      repeat split. now exists answer.
  - intros H. right.
    apply store_inv in H
      as (p & value & rest' & c' & -> & -> & Hs & Hset & Hfs & Hc & _).
    exists p, value, c'. rewrite Hs.
    repeat split; try assumption. set_solver.
Qed.

End UpdateConfig.

Section UpdateConfigClaims.

Context {page : Type}.
Implicit Types w : world page.

Lemma config_read_inv filename w u w' :
  config_read filename w = Normal u w' ->
  fs w' = fs w /\ stdin w' = stdin w.
Proof.
  unfold config_read.
  destruct (fs w !! filename) as [[] |]; try discriminate;
    now intros [= _ <-].
Qed.

(** [config.read] changes the parser only. *)
Lemma config_read_frame filename w u w0 :
  config_read filename w = Normal u w0 -> w0 = with_config w (config w0).
Proof.
  unfold config_read.
  destruct (fs w !! filename) as [[] |]; try discriminate;
    intros [= _ <-]; now destruct w.
Qed.

(** The function after its first three statements. *)
Lemma update_config_after_read config_file w w0 producer creator :
  config_read config_file w = Normal tt w0 ->
  ConfigParser.get (config w0) "Metadata" "Producer" "" = Ok producer ->
  ConfigParser.get (config w0) "Metadata" "Creator" "" = Ok creator ->
  update_config config_file w =
    (binding <- resolve_value "Producer" producer (Path config_file) ;;
     _ <- resolve_value "Creator" creator binding ;;
     ret tt) w0.
Proof.
  intros Hread Hp Hc. rewrite update_config_blocks.
  unfold bind at 1. rewrite Hread.
  unfold bind at 1. rewrite (config_get_ok _ _ _ _ _ Hp).
  unfold bind at 1. rewrite (config_get_ok _ _ _ _ _ Hc).
  reflexivity.
Qed.

(** A block whose value is stored, up to the answer at the confirmation
    prompt. *)
Lemma resolve_value_asked key current shown answer rest config_file w :
  truthy current = true ->
  ConfigParser.get (config w) "Metadata" key "" = Ok shown ->
  stdin w = answer :: rest ->
  resolve_value key current config_file w =
    (if String.eqb (lower answer) "n" then
       (value <- input ("Enter the value for " +:+ key +:+ ": ") ;;
        config_set "Metadata" key value ;;
        fp <- open_w config_file ;;
        config_write fp ;;
        print "Metadata updated" ;;
        ret (FileObject fp))
     else
       (print "Using existing metadata value." ;;
        ret config_file))
      (World (fs w) (config w) rest
         (stdout w ++ ["Existing metadata value found in the config file:";
                       key +:+ ": " +:+ shown;
                       "Do you want to use this value? (y/n): "])).
Proof.
  intros Ht Hget Hstdin. unfold resolve_value. rewrite Ht.
  unfold bind at 1. unfold print at 1.
  unfold bind at 1. unfold config_get at 1. simpl config. rewrite Hget.
  simpl lift. unfold ret at 1.
  unfold bind at 1. unfold print at 1.
  unfold bind at 1. unfold input at 1. simpl stdin. rewrite Hstdin.
  destruct w as [f c i o]. simpl.
  rewrite <- !app_assoc. reflexivity.
Qed.

(** A block that ends normally has read its lines as [block_lines] says:
    the value is kept and the parser is as it was, or the line typed at
    the value prompt is what [config.set] stored. *)
Lemma resolve_value_reads key current config_file w cf' w' :
  resolve_value key current config_file w = Normal cf' w' ->
  (truthy current = true /\ cf' = config_file /\ config w' = config w /\
   block_lines current (stdin w) = ([], stdin w'))
  \/
  (exists p value,
     config_file = Path p /\ cf' = FileObject p /\
     block_lines current (stdin w) = ([value], stdin w') /\
     ConfigParser.set (config w) "Metadata" key value = Ok (config w')).
Proof.
  unfold resolve_value, block_lines. destruct (truthy current) eqn:Ht.
  - intros H.
    apply bind_normal_inv in H as (u1 & w1 & Hp1 & H).
    apply bind_normal_inv in H as (shown & w2 & Hget & H).
    apply bind_normal_inv in H as (u2 & w3 & Hp2 & H).
    apply bind_normal_inv in H as (answer & w4 & Hin & H).
    injection Hp1 as _ <-.
    apply config_get_inv in Hget as (_ & ->).
    injection Hp2 as _ <-.
    apply input_inv in Hin as (rest & Hstdin & ->). simpl in Hstdin.
    rewrite Hstdin.
    destruct (String.eqb (lower answer) "n") eqn:Hanswer.
    + right. apply store_inv in H
        as (p & value & rest' & c' & -> & -> & Hs & Hset & _ & Hc & Hrest).
      simpl in Hs, Hset. subst rest c'.
      exists p, value. rewrite Hrest. repeat split; assumption.
    + left. cbv [bind print ret] in H. injection H as <- <-. simpl.
      repeat split.
  - intros H. right.
    apply store_inv in H
      as (p & value & rest' & c' & -> & -> & Hs & Hset & _ & Hc & Hrest).
    subst c'. exists p, value. rewrite Hs, Hrest. repeat split; assumption.
Qed.

(** C10.  At either confirmation prompt of [update_config] only the
    answers ["n"] and ["N"] decline.  Any other answer (["no"], the empty
    line, any text) accepts: [update_config] prints that the existing
    value is used and goes on with the parser, the file system and the
    binding of [config_file] as they were; after the Producer prompt it
    goes on with the Creator block, after the Creator prompt it ends
    normally.  After ["n"] or ["N"] it goes on with the statements that
    ask for the replacement and store it. *)
Theorem C10_only_n_declines (config_file producer creator : string) w w0 :
  config_read config_file w = Normal tt w0 ->
  ConfigParser.get (config w0) "Metadata" "Producer" "" = Ok producer ->
  ConfigParser.get (config w0) "Metadata" "Creator" "" = Ok creator ->
  (forall answer,
     String.eqb (lower answer) "n" = true <-> answer = "n" \/ answer = "N") /\
  (forall answer rest,
     truthy producer = true ->
     stdin w = answer :: rest ->
     let asked :=
       World (fs w) (config w0) rest
         (stdout w ++ ["Existing metadata value found in the config file:";
                       "Producer: " +:+ producer;
                       "Do you want to use this value? (y/n): "]) in
     (answer <> "n" -> answer <> "N" ->
      update_config config_file w =
        (_ <- resolve_value "Creator" creator (Path config_file) ;;
         ret tt)
          (with_stdout asked
             (stdout asked ++ ["Using existing metadata value."]))) /\
     (answer = "n" \/ answer = "N" ->
      update_config config_file w =
        (binding <-
           (value <- input "Enter the value for Producer: " ;;
            config_set "Metadata" "Producer" value ;;
            fp <- open_w (Path config_file) ;;
            config_write fp ;;
            print "Metadata updated" ;;
            ret (FileObject fp)) ;;
         _ <- resolve_value "Creator" creator binding ;;
         ret tt) asked)) /\
  (forall answer rest binding w1 shown,
     resolve_value "Producer" producer (Path config_file) w0 =
       Normal binding w1 ->
     truthy creator = true ->
     ConfigParser.get (config w1) "Metadata" "Creator" "" = Ok shown ->
     stdin w1 = answer :: rest ->
     let asked :=
       World (fs w1) (config w1) rest
         (stdout w1 ++ ["Existing metadata value found in the config file:";
                        "Creator: " +:+ shown;
                        "Do you want to use this value? (y/n): "]) in
     (answer <> "n" -> answer <> "N" ->
      update_config config_file w =
        Normal tt
          (with_stdout asked
             (stdout asked ++ ["Using existing metadata value."]))) /\
     (answer = "n" \/ answer = "N" ->
      update_config config_file w =
        (_ <-
           (value <- input "Enter the value for Creator: " ;;
            config_set "Metadata" "Creator" value ;;
            fp <- open_w binding ;;
            config_write fp ;;
            print "Metadata updated" ;;
            ret (FileObject fp)) ;;
         ret tt) asked)).
Proof.
  intros Hread Hp Hc.
  pose proof (update_config_after_read _ _ _ _ _ Hread Hp Hc) as Hrun.
  split; [intros answer; apply confirm_declines |]. split.
  - intros answer rest Ht Hstdin asked.
    assert (Hblock :
      resolve_value "Producer" producer (Path config_file) w0 =
        (if String.eqb (lower answer) "n" then
           (value <- input "Enter the value for Producer: " ;;
            config_set "Metadata" "Producer" value ;;
            fp <- open_w (Path config_file) ;;
            config_write fp ;;
            print "Metadata updated" ;;
            ret (FileObject fp))
         else
           (print "Using existing metadata value." ;;
            ret (Path config_file))) asked).
    { rewrite (resolve_value_asked "Producer" producer producer answer rest
                 (Path config_file) w0 Ht Hp).
      - subst asked. rewrite (config_read_frame _ _ _ _ Hread).
        now destruct w.
      - destruct (config_read_inv _ _ _ _ Hread) as (_ & ->).
        exact Hstdin. }
    split.
    + intros Hn HN. rewrite Hrun. unfold bind at 1. rewrite Hblock.
      destruct (String.eqb (lower answer) "n") eqn:E; [| reflexivity].
      apply confirm_declines in E as [E | E]; contradiction.
    + intros Hd. apply confirm_declines in Hd.
      rewrite Hrun. unfold bind at 1. rewrite Hblock, Hd. reflexivity.
  - intros answer rest binding w1 shown Hfirst Ht Hget Hstdin asked.
    assert (Hblock :
      resolve_value "Creator" creator binding w1 =
        (if String.eqb (lower answer) "n" then
           (value <- input "Enter the value for Creator: " ;;
            config_set "Metadata" "Creator" value ;;
            fp <- open_w binding ;;
            config_write fp ;;
            print "Metadata updated" ;;
            ret (FileObject fp))
         else
           (print "Using existing metadata value." ;;
            ret binding)) asked).
    { exact (resolve_value_asked "Creator" creator shown answer rest
               binding w1 Ht Hget Hstdin). }
    split.
    + intros Hn HN. rewrite Hrun. unfold bind at 1. rewrite Hfirst.
      unfold bind at 1. rewrite Hblock.
      destruct (String.eqb (lower answer) "n") eqn:E; [| reflexivity].
      apply confirm_declines in E as [E | E]; contradiction.
    + intros Hd. apply confirm_declines in Hd.
      rewrite Hrun. unfold bind at 1. rewrite Hfirst.
      unfold bind at 1. rewrite Hblock, Hd. reflexivity.
Qed.

(** C1 (amended).  When [update_config] ends normally and every line that
    the operator typed at a prompt [Enter the value for ...] is non-empty
    and holds no percent sign, Producer and Creator both resolve, and to
    non-empty strings.  Nothing is asked of the answers at the
    confirmation prompts, of the lines that are not read, or of the
    values that the file held. *)
Theorem C1_resolved_values_nonempty (config_file : string) w w' :
  update_config config_file w = Normal tt w' ->
  Forall (fun line => line <> "" /\ contains "%" line = false)
    (value_lines config_file w) ->
  exists producer creator,
    ConfigParser.get (config w') "Metadata" "Producer" "" = Ok producer /\
    ConfigParser.get (config w') "Metadata" "Creator" "" = Ok creator /\
    producer <> "" /\ creator <> "".
Proof.
  intros H Hlines. rewrite update_config_blocks in H.
  apply bind_normal_inv in H as ([] & w0 & Hread & H).
  apply bind_normal_inv in H as (producer & w0' & Hgp & H).
  apply bind_normal_inv in H as (creator & w0'' & Hgc & H).
  apply bind_normal_inv in H as (cf1 & w1 & Hp & H).
  apply bind_normal_inv in H as (cf2 & w2 & Hc & H).
  injection H as <-.
  apply config_get_inv in Hgp as (Hgp & ->).
  apply config_get_inv in Hgc as (Hgc & ->).
  unfold value_lines in Hlines. rewrite Hread, Hgp, Hgc in Hlines.
  apply resolve_value_reads in Hp
    as [(Htp & -> & Hc1 & Hl1) | (p & vp & _ & -> & Hl1 & Hset1)];
    rewrite Hl1 in Hlines; cbn [fst snd] in Hlines.
  - apply resolve_value_reads in Hc
      as [(Htc & _ & Hc2 & Hl2) | (p & vc & _ & _ & Hl2 & Hset2)];
      rewrite Hl2 in Hlines; cbn [fst snd] in Hlines.
    + exists producer, creator. rewrite Hc2, Hc1.
      repeat split; auto using truthy_nonempty.
    + apply Forall_inv in Hlines as (Hvc & Hplain). rewrite Hc1 in Hset2.
      destruct (get_after_set_kept _ _ _ _ "Producer" producer
                  Hset2 Hplain Hvc Hgp (truthy_nonempty _ Htp))
        as (producer' & Hgp' & Hnp').
      exists producer', vc. repeat split; try assumption.
      now apply (get_after_set_same _ _ _ _ Hset2).
  - apply resolve_value_reads in Hc
      as [(Htc & _ & Hc2 & Hl2) | (p' & _ & Hcf & _)];
      [| discriminate Hcf].
    rewrite Hl2 in Hlines. cbn [fst snd] in Hlines.
    apply Forall_inv in Hlines as (Hvp & Hplain).
    destruct (get_after_set_kept _ _ _ _ "Creator" creator
                Hset1 Hplain Hvp Hgc (truthy_nonempty _ Htc))
      as (creator' & Hgc' & Hnc').
    exists vp, creator'. rewrite Hc2. repeat split; try assumption.
    now apply (get_after_set_same _ _ _ _ Hset1).
Qed.

End UpdateConfigClaims.

(** ** Processing one PDF *)

Section ProcessPdf.

Context {page : Type}.
Variable merge_page : page -> page -> page.
Implicit Types w : world page.

(** The page loop, started at page number [k] with [len] pages to go: the
    pages from [k] on are still those of the file, each is overlaid with
    its twin of the second read, which is the page itself. *)
Lemma copy_pages_seq path doc w :
  fs w !! path = Some (FPdf doc) ->
  forall len k pdf2 done meta,
    (forall i, k <= i -> pdf2 !! i = pages doc !! i) ->
    k + len = List.length (pages doc) ->
    copy_pages merge_page path pdf2 (seq k len) (Pdf done meta) w =
      Normal
        (Pdf (done ++ map (fun p => merge_page p p)
                        (take len (drop k (pages doc)))) meta) w.
Proof.
  intros Hfile. induction len as [|len IH]; intros k pdf2 done meta Hsame Hk.
  - simpl. now rewrite app_nil_r.
  - destruct (lookup_lt_is_Some_2 (pages doc) k) as [p Hp]; [lia |].
    cbn [seq copy_pages].
    unfold bind at 1. unfold index at 1. rewrite Hsame, Hp by lia.
    unfold ret at 1.
    unfold bind at 1. rewrite (PdfReader_ok _ _ _ Hfile).
    unfold bind at 1. unfold index at 1. rewrite Hp. unfold ret at 1.
    unfold add_page. cbn [pages info].
    rewrite IH.
    + rewrite (drop_S _ _ _ Hp). cbn [take map].
      now rewrite <- app_assoc.
    + intros i Hi. rewrite list_lookup_insert_ne by lia. apply Hsame. lia.
    + lia.
Qed.

Lemma copy_pages_all path doc w :
  fs w !! path = Some (FPdf doc) ->
  copy_pages merge_page path (pages doc)
    (seq 0 (List.length (pages doc))) PdfWriter w =
    Normal (Pdf (map (fun p => merge_page p p) (pages doc))
              (info (PdfWriter (page := page)))) w.
Proof.
  intros Hfile. unfold PdfWriter at 1.
  rewrite (copy_pages_seq path doc w Hfile); [| reflexivity | reflexivity].
  now rewrite drop_0, firstn_all.
Qed.

(** The document [process_pdf] writes for the document [doc] it read. *)
Lemma process_pdf_after_read path output_folder w doc :
  fs w !! path = Some (FPdf doc) ->
  process_pdf merge_page path output_folder w =
    (producer <- config_get "Metadata" "Producer" "" ;;
     creator <- config_get "Metadata" "Creator" "" ;;
     output_file <- open_w (Path (path_join output_folder (basename path))) ;;
     write_pdf output_file
       (Pdf (map (fun p => merge_page p p) (pages doc))
          ({["/Producer" := producer; "/Creator" := creator]}
             ∪ {["/Producer" := "PyPDF2"]}))) w.
Proof.
  intros Hfile. unfold process_pdf.
  unfold bind at 1. unfold open_rb. rewrite Hfile.
  unfold bind at 1. rewrite (PdfReader_ok _ _ _ Hfile).
  unfold bind at 1. rewrite (copy_pages_all _ _ _ Hfile).
  reflexivity.
Qed.

(** The entries [add_metadata] leaves in the writer. *)
Lemma stamped_info (producer creator : string) :
  ({["/Producer" := producer; "/Creator" := creator]}
     ∪ {["/Producer" := "PyPDF2"]} : gmap string string) =
  {["/Producer" := producer; "/Creator" := creator]}.
Proof.
  apply map_eq. intros k.
  rewrite lookup_union.
  destruct (decide (k = "/Producer")) as [-> | Hk].
  - now rewrite lookup_insert_eq, lookup_singleton_eq.
  - rewrite (lookup_singleton_ne "/Producer" k) by congruence.
    now rewrite right_id by apply _.
Qed.

Lemma process_pdf_ok path output_folder w doc producer creator :
  fs w !! path = Some (FPdf doc) ->
  ConfigParser.get (config w) "Metadata" "Producer" "" = Ok producer ->
  ConfigParser.get (config w) "Metadata" "Creator" "" = Ok creator ->
  fs w !! path_join output_folder (basename path) <> Some FDir ->
  process_pdf merge_page path output_folder w =
    Normal tt
      (with_fs w
         (<[path_join output_folder (basename path) :=
              FPdf (Pdf (map (fun p => merge_page p p) (pages doc))
                      {["/Producer" := producer; "/Creator" := creator]})]>
            (fs w))).
Proof.
  intros Hfile Hp Hc Hout.
  rewrite (process_pdf_after_read _ _ _ _ Hfile).
  unfold bind at 1. rewrite (config_get_ok _ _ _ _ _ Hp).
  unfold bind at 1. rewrite (config_get_ok _ _ _ _ _ Hc).
  unfold bind at 1. rewrite (open_w_ok _ _ Hout).
  unfold write_pdf. simpl. rewrite insert_insert_eq, stamped_info.
  reflexivity.
Qed.

(** A normal end of [process_pdf] is the one of [process_pdf_ok]. *)
Lemma process_pdf_inv path output_folder w u w' :
  process_pdf merge_page path output_folder w = Normal u w' ->
  exists doc producer creator,
    fs w !! path = Some (FPdf doc) /\
    ConfigParser.get (config w) "Metadata" "Producer" "" = Ok producer /\
    ConfigParser.get (config w) "Metadata" "Creator" "" = Ok creator /\
    w' = with_fs w
           (<[path_join output_folder (basename path) :=
                FPdf (Pdf (map (fun p => merge_page p p) (pages doc))
                        {["/Producer" := producer; "/Creator" := creator]})]>
              (fs w)).
Proof.
  intros H.
  assert (exists doc, fs w !! path = Some (FPdf doc)) as [doc Hfile].
  { unfold process_pdf in H.
    apply bind_normal_inv in H as (u0 & w0 & Hopen & H).
    apply bind_normal_inv in H as (doc & w1 & Hread & _).
    assert (w0 = w) as ->.
    { unfold open_rb in Hopen.
      destruct (fs w !! path) as [[] |]; congruence. }
    apply PdfReader_inv in Hread as [Hread _]. now exists doc. }
  rewrite (process_pdf_after_read _ _ _ _ Hfile) in H.
  apply bind_normal_inv in H as (producer & w1 & Hp & H).
  apply config_get_inv in Hp as (Hp & ->).
  apply bind_normal_inv in H as (creator & w1 & Hc & H).
  apply config_get_inv in Hc as (Hc & ->).
  apply bind_normal_inv in H as (fp & w1 & Hopen & H).
  apply open_w_inv in Hopen as (Hfp & Hout & ->).
  injection Hfp as <-.
  exists doc, producer, creator. repeat split; try assumption.
  unfold write_pdf in H. simpl in H.
  rewrite insert_insert_eq, stamped_info in H.
  injection H as H. subst w'. reflexivity.
Qed.

(** When [process_pdf] raises, nothing has been written. *)
Lemma process_pdf_raised_inv path output_folder w e w' :
  process_pdf merge_page path output_folder w = Raised e w' -> w' = w.
Proof.
  destruct (fs w !! path) as [[| c | doc |] |] eqn:Hfile.
  1, 2, 4, 5:
    unfold process_pdf, bind, open_rb, PdfReader; rewrite ?Hfile;
    now intros [= _ <-].
  rewrite (process_pdf_after_read _ _ _ _ Hfile).
  unfold bind, config_get, open_w, write_pdf, lift, raise, ret.
  destruct (ConfigParser.get _ _ "Producer" _); simpl;
    [| inversion 1; reflexivity].
  destruct (ConfigParser.get _ _ "Creator" _); simpl;
    [| inversion 1; reflexivity].
  destruct (fs w !! path_join output_folder (basename path)) as [[] |];
    inversion 1; reflexivity.
Qed.

(** [process_pdf] touches one path only: that of its output file. *)
Lemma process_pdf_frame path output_folder w other :
  other <> path_join output_folder (basename path) ->
  fs (final (process_pdf merge_page path output_folder w)) !! other =
    fs w !! other.
Proof.
  intros Hother.
  destruct (process_pdf merge_page path output_folder w) as [[] w' | e w']
    eqn:E; simpl.
  - apply process_pdf_inv in E as (doc & p & c & _ & _ & _ & ->).
    simpl. now rewrite lookup_insert_ne.
  - now apply process_pdf_raised_inv in E as ->.
Qed.

End ProcessPdf.

Section ProcessPdfClaims.

Context {page : Type}.
Variable merge_page : page -> page -> page.
Implicit Types w : world page.

(** C4.  For a listing entry [name] of the input folder that holds a
    readable PDF, [process_pdf] ends normally and the output folder then
    holds, under the same name, a document with as many pages as the
    input, whose [/Producer] and [/Creator] entries are the values [get]
    answers for the two keys (the empty string for a key that is not
    stored).  What the output path held before is replaced, and no other
    path changes. *)
Theorem C4_process_pdf_output
    (input_folder output_folder name producer creator : string)
    w (doc : pdf page) :
  contains "/" name = false ->
  fs w !! path_join input_folder name = Some (FPdf doc) ->
  fs w !! path_join output_folder name <> Some FDir ->
  ConfigParser.get (config w) "Metadata" "Producer" "" = Ok producer ->
  ConfigParser.get (config w) "Metadata" "Creator" "" = Ok creator ->
  exists w' out,
    process_pdf merge_page (path_join input_folder name) output_folder w =
      Normal tt w' /\
    fs w' !! path_join output_folder name = Some (FPdf out) /\
    basename (path_join output_folder name) =
      basename (path_join input_folder name) /\
    List.length (pages out) = List.length (pages doc) /\
    info out !! "/Producer" = Some producer /\
    info out !! "/Creator" = Some creator /\
    (ConfigParser.raw (config w) "Metadata" "Producer" = None ->
     producer = "") /\
    (ConfigParser.raw (config w) "Metadata" "Creator" = None ->
     creator = "") /\
    (forall other, other <> path_join output_folder name ->
                   fs w' !! other = fs w !! other).
Proof.
  intros Hname Hfile Hout Hp Hc.
  pose proof (basename_path_join input_folder name Hname) as Hbase.
  eexists _, _. split.
  { apply process_pdf_ok; try eassumption. now rewrite Hbase. }
  rewrite Hbase. simpl.
  split; [apply lookup_insert_eq |].
  split; [now rewrite !basename_path_join |].
  split; [apply length_map |].
  split; [apply lookup_insert_eq |].
  split; [cbn [info]; now rewrite lookup_insert_ne, lookup_singleton_eq |].
  split; [intros Hraw; rewrite (get_absent _ _ _ _ Hraw) in Hp; congruence |].
  split; [intros Hraw; rewrite (get_absent _ _ _ _ Hraw) in Hc; congruence |].
  intros other Hother. now rewrite lookup_insert_ne.
Qed.

(** C8.  The [/Producer] and [/Creator] entries that [process_pdf] writes
    are a function of the two resolved configuration values alone: two
    runs that resolve the same values write the same entries, whatever
    else differs between the two worlds. *)
Theorem C8_metadata_determined_by_config
    (path output_folder : string) w1 w2 w1' w2' :
  ConfigParser.get (config w1) "Metadata" "Producer" "" =
    ConfigParser.get (config w2) "Metadata" "Producer" "" ->
  ConfigParser.get (config w1) "Metadata" "Creator" "" =
    ConfigParser.get (config w2) "Metadata" "Creator" "" ->
  process_pdf merge_page path output_folder w1 = Normal tt w1' ->
  process_pdf merge_page path output_folder w2 = Normal tt w2' ->
  exists out1 out2,
    fs w1' !! path_join output_folder (basename path) = Some (FPdf out1) /\
    fs w2' !! path_join output_folder (basename path) = Some (FPdf out2) /\
    info out1 = info out2 /\
    info out1 !! "/Producer" = info out2 !! "/Producer" /\
    info out1 !! "/Creator" = info out2 !! "/Creator".
Proof.
  intros Hp Hc H1 H2.
  apply process_pdf_inv in H1 as (d1 & p1 & c1 & _ & Hp1 & Hc1 & ->).
  apply process_pdf_inv in H2 as (d2 & p2 & c2 & _ & Hp2 & Hc2 & ->).
  rewrite Hp1, Hp2 in Hp. rewrite Hc1, Hc2 in Hc.
  injection Hp as ->. injection Hc as ->.
  eexists _, _. simpl.
  split; [apply lookup_insert_eq |].
  split; [apply lookup_insert_eq |].
  simpl. auto.
Qed.

(** C9.  The pages [process_pdf] puts into the output are not the pages
    it read: page [i] of the output is page [i] of the reader overlaid,
    by [merge_page], with page [i] of a second reader of the same file,
    that is with a second copy of itself.  It is the source page again
    only if PyPDF2's overlay of that page with itself is the page. *)
Theorem C9_pages_are_overlaid (path output_folder : string) w w'
    (doc : pdf page) :
  PdfReader path w = Normal doc w ->
  process_pdf merge_page path output_folder w = Normal tt w' ->
  exists out,
    fs w' !! path_join output_folder (basename path) = Some (FPdf out) /\
    List.length (pages out) = List.length (pages doc) /\
    forall i first second,
      pages doc !! i = Some first ->
      (exists again, PdfReader path w = Normal again w /\
                     pages again !! i = Some second) ->
      pages out !! i = Some (merge_page first second) /\
      second = first /\
      (merge_page first first <> first -> pages out !! i <> Some first).
Proof.
  intros Hread H.
  apply PdfReader_inv in Hread as [Hfile _].
  apply process_pdf_inv in H as (d & p & c & Hd & _ & _ & ->).
  rewrite Hfile in Hd. injection Hd as <-.
  eexists. simpl.
  split; [apply lookup_insert_eq |].
  split; [apply length_map |].
  intros i first second Hi (again & Hagain & Hsecond).
  apply PdfReader_inv in Hagain as [Hagain _].
  rewrite Hfile in Hagain. injection Hagain as <-.
  rewrite Hi in Hsecond. injection Hsecond as <-.
  simpl. rewrite list_lookup_fmap, Hi. simpl.
  repeat split. congruence.
Qed.

End ProcessPdfClaims.

(** ** The batch loop *)

Section BatchLoop.

Context {page : Type}.
Variable merge_page : page -> page -> page.
Implicit Types w : world page.

Lemma main_loop_app input_folder output_folder before after w :
  main_loop merge_page input_folder output_folder (before ++ after) w =
    (main_loop merge_page input_folder output_folder before ;;
     main_loop merge_page input_folder output_folder after) w.
Proof.
  revert w. induction before as [|name before IH]; intros w;
    [reflexivity |].
  cbn [app main_loop]. unfold bind.
  destruct (if endswith name ".pdf" then _ else _) as [u w1 | e w1];
    [| reflexivity].
  rewrite IH. reflexivity.
Qed.

(** Whatever makes [process_pdf] raise on an entry with the suffix ends
    the loop there: the entries after it are not looked at. *)
Lemma main_loop_raised input_folder output_folder before name after w w1 e w2 :
  main_loop merge_page input_folder output_folder before w = Normal tt w1 ->
  endswith name ".pdf" = true ->
  process_pdf merge_page (path_join input_folder name) output_folder w1 =
    Raised e w2 ->
  main_loop merge_page input_folder output_folder (before ++ name :: after) w =
    Raised e w2.
Proof.
  intros Hbefore Hsuffix Hraise.
  rewrite main_loop_app. unfold bind at 1. rewrite Hbefore.
  cbn [main_loop]. rewrite Hsuffix.
  apply bind_raised. exact Hraise.
Qed.

(** A path that holds no readable PDF: [process_pdf] raises at [open] or
    in the reader, before anything is written. *)
Lemma process_pdf_unreadable path output_folder w :
  (forall doc, fs w !! path <> Some (FPdf doc)) ->
  exists e,
    process_pdf merge_page path output_folder w = Raised e w /\
    (e = FileNotFoundError \/ e = IsADirectoryError \/ e = PdfReadError).
Proof.
  intros H. unfold process_pdf, bind, open_rb, PdfReader.
  destruct (fs w !! path) as [[| c | doc |] |] eqn:E; rewrite ?E; eauto.
  now destruct (H doc).
Qed.

(** The loop writes only at the output paths of the entries it selects. *)
Lemma main_loop_frame input_folder output_folder entries w other :
  (forall name,
     name ∈ entries -> endswith name ".pdf" = true ->
     other <> path_join output_folder (basename (path_join input_folder name))) ->
  fs (final (main_loop merge_page input_folder output_folder entries w))
    !! other = fs w !! other.
Proof.
  revert w. induction entries as [|name rest IH]; intros w Hother;
    [reflexivity |].
  cbn [main_loop]. unfold bind.
  destruct (endswith name ".pdf") eqn:Hsuffix.
  - pose proof (process_pdf_frame merge_page
                  (path_join input_folder name) output_folder w other) as Hone.
    destruct (process_pdf _ _ _ w) as [u w1 | e w1]; simpl in Hone |- *.
    + rewrite IH by (intros n Hn; apply Hother; set_solver).
      apply Hone, Hother; [set_solver | exact Hsuffix].
    + apply Hone, Hother; [set_solver | exact Hsuffix].
  - unfold ret. apply IH. intros n Hn. apply Hother. set_solver.
Qed.

Lemma create_folders_inv root w folders w' :
  create_folders (page := page) root w = Normal folders w' ->
  folders = (path_join root "output", path_join root "input",
             path_join root "config").
Proof.
  unfold create_folders. intros H.
  apply bind_normal_inv in H as (u1 & w1 & _ & H).
  apply bind_normal_inv in H as (u2 & w2 & _ & H).
  apply bind_normal_inv in H as (u3 & w3 & _ & H).
  now injection H as <- _.
Qed.

(** Nothing in the main program catches an exception: once the statements
    before the loop have ended normally, the program ends as its loop
    ends. *)
Lemma main_ends_as_its_loop root listdir w w0 :
  main_setup root w = Normal tt w0 ->
  main merge_page root listdir w =
    main_loop merge_page (path_join root "input") (path_join root "output")
      listdir w0.
Proof.
  intros H. unfold main. unfold main_setup in H.
  apply bind_normal_inv in H as (folders & w1 & Hfolders & H).
  unfold bind at 1. rewrite Hfolders.
  apply create_folders_inv in Hfolders as ->.
  apply bind_normal_inv in H as (u & w2 & Hnew & H).
  unfold bind at 1. rewrite Hnew.
  apply bind_normal_inv in H as (present & w3 & Hpresent & H).
  unfold bind at 1. rewrite Hpresent.
  apply bind_normal_inv in H as (u' & w4 & Hcreate & H).
  unfold bind at 1. rewrite Hcreate.
  unfold bind at 1. rewrite H. reflexivity.
Qed.

(** C3.  The batch loop processes exactly the entries whose name ends
    with [".pdf"], in listing order: it is the loop that calls
    [process_pdf] on each entry selected by the suffix.  The test is the
    suffix relation on the characters of the name, so the case has to
    match; an entry without the suffix is skipped and leaves the world as
    it is, and whatever the loop does to the other entries, the output
    folder gets no file of its name. *)
Theorem C3_batch_selects_pdf_suffix
    (input_folder output_folder : string) (entries : list string) :
  (forall name, endswith name ".pdf" = true <-> has_pdf_suffix name) /\
  (forall w,
     main_loop merge_page input_folder output_folder entries w =
     process_each merge_page input_folder output_folder
       (List.filter (fun name => endswith name ".pdf") entries) w) /\
  (forall name rest w,
     ~ has_pdf_suffix name ->
     main_loop merge_page input_folder output_folder (name :: rest) w =
     main_loop merge_page input_folder output_folder rest w) /\
  (forall name w,
     Forall (fun entry => contains "/" entry = false) entries ->
     contains "/" name = false ->
     ~ has_pdf_suffix name ->
     fs (final (main_loop merge_page input_folder output_folder entries w))
       !! path_join output_folder name =
     fs w !! path_join output_folder name) /\
  ~ has_pdf_suffix "a.PDF" /\ ~ has_pdf_suffix "a.pdf.txt" /\
  has_pdf_suffix "a.pdf".
Proof.
  assert (Hspec : forall name,
             endswith name ".pdf" = true <-> has_pdf_suffix name)
    by (intros name; apply endswith_spec).
  split; [exact Hspec |]. split; [| split; [| split]].
  - induction entries as [|name rest IH]; intros w; [reflexivity |].
    cbn [main_loop List.filter].
    destruct (endswith name ".pdf"); cbn [process_each].
    + unfold bind. destruct (process_pdf _ _ _ w); [apply IH | reflexivity].
    + unfold bind, ret. apply IH.
  - intros name rest w Hno. cbn [main_loop].
    destruct (endswith name ".pdf") eqn:E; [| reflexivity].
    now apply Hspec in E.
  - intros name w Hentries Hname Hno.
    apply main_loop_frame. intros entry Hin Hsuffix Heq.
    rewrite Forall_forall in Hentries.
    rewrite (basename_path_join _ _ (Hentries _ Hin)) in Heq.
    destruct (path_join_prefix output_folder) as [pre Hpre].
    rewrite (Hpre _ Hname), (Hpre _ (Hentries _ Hin)) in Heq.
    apply append_inv_head in Heq as ->.
    now apply Hspec in Hsuffix.
  - split; [rewrite <- Hspec; intros H; vm_compute in H; discriminate H |].
    split; [rewrite <- Hspec; intros H; vm_compute in H; discriminate H |].
    apply Hspec. reflexivity.
Qed.

(** C6.  When an entry with the suffix cannot be opened or read as a PDF,
    [process_pdf] raises, nothing catches the exception, and the loop, and
    with it the whole program, ends with that exception in the world
    reached before the entry: the entries after it are not processed and
    the entry is not tried again. *)
Theorem C6_failure_aborts_batch
    (root name : string) (before after : list string) w0 w w1 :
  let input_folder := path_join root "input" in
  let output_folder := path_join root "output" in
  main_setup root w0 = Normal tt w ->
  main_loop merge_page input_folder output_folder before w = Normal tt w1 ->
  endswith name ".pdf" = true ->
  (forall doc, fs w1 !! path_join input_folder name <> Some (FPdf doc)) ->
  exists e,
    (e = FileNotFoundError \/ e = IsADirectoryError \/ e = PdfReadError) /\
    process_pdf merge_page (path_join input_folder name) output_folder w1 =
      Raised e w1 /\
    main_loop merge_page input_folder output_folder
      (before ++ name :: after) w = Raised e w1 /\
    main merge_page root (before ++ name :: after) w0 = Raised e w1.
Proof.
  intros input_folder output_folder Hsetup Hbefore Hsuffix Hbad.
  destruct (process_pdf_unreadable _ output_folder _ Hbad) as (e & He & Hkind).
  assert (Hloop : main_loop merge_page input_folder output_folder
                    (before ++ name :: after) w = Raised e w1)
    by (eapply main_loop_raised; eassumption).
  exists e. split; [exact Hkind |]. split; [exact He |].
  split; [exact Hloop |].
  now rewrite (main_ends_as_its_loop _ _ _ _ Hsetup).
Qed.

End BatchLoop.

(** ** The claims on the example worlds *)

Section Runs.

Import Demo.

(** C1, as stated, fails: with Producer stored, the operator accepts it
    and answers the Creator prompt with an empty line; [update_config]
    ends normally and Creator is resolved to the empty string. *)
Lemma C1_counterexample :
  exists w',
    update_config config_ini accepts_then_empty = Normal tt w' /\
    ConfigParser.raw (config w') "Metadata" "Creator" = Some "" /\
    ConfigParser.get (config w') "Metadata" "Creator" "" = Ok "" /\
    ConfigParser.get (config w') "Metadata" "Producer" "" = Ok "X".
Proof.
  eexists. split; [vm_compute; reflexivity |].
  repeat split; vm_compute; reflexivity.
Qed.

(** A line with a percent sign at a value prompt: the operator accepts
    the Producer and types a reference to Creator itself as Creator.
    [config.set] accepts the line and [update_config] ends normally, but
    Creator no longer resolves. *)
Lemma typed_reference_does_not_resolve :
  exists w',
    update_config config_ini types_reference = Normal tt w' /\
    value_lines config_ini types_reference = ["%(creator)s"] /\
    ConfigParser.raw (config w') "Metadata" "Creator" = Some "%(creator)s" /\
    ConfigParser.get (config w') "Metadata" "Creator" "" =
      Err InterpolationDepthError.
Proof.
  eexists. split; [vm_compute; reflexivity |].
  repeat split; vm_compute; reflexivity.
Qed.

(** The amended statement at work: the operator accepts the Producer with
    the return key, an empty line, and enters a Creator. *)
Lemma C1_witness :
  value_lines config_ini accepts_with_return = ["C"] /\
  exists producer creator,
    ConfigParser.get
      (config (final (update_config config_ini accepts_with_return)))
      "Metadata" "Producer" "" = Ok producer /\
    ConfigParser.get
      (config (final (update_config config_ini accepts_with_return)))
      "Metadata" "Creator" "" = Ok creator /\
    producer <> "" /\ creator <> "".
Proof.
  split; [vm_compute; reflexivity |].
  apply (C1_resolved_values_nonempty config_ini accepts_with_return).
  - vm_compute. reflexivity.
  - assert (value_lines config_ini accepts_with_return = ["C"]) as ->
      by (vm_compute; reflexivity).
    repeat constructor. discriminate.
Defined.

(** The answers ["no"] and ["maybe"] are not ["n"]: after ["no"] at the
    Producer prompt [update_config] goes on with the Creator block, and
    after ["maybe"] at the Creator prompt it ends with both stored values
    kept and nothing written. *)
Lemma C10_witness :
  (String.eqb (lower "no") "n" = true <-> "no" = "n" \/ "no" = "N") /\
  update_config config_ini answers_no =
    (_ <- resolve_value "Creator" "Y" (Path config_ini) ;;
     ret tt)
      (World (fs answers_no)
         (metadata {["producer" := "X"; "creator" := "Y"]}) ["maybe"]
         ["Existing metadata value found in the config file:";
          "Producer: X";
          "Do you want to use this value? (y/n): ";
          "Using existing metadata value."]) /\
  update_config config_ini answers_no =
    Normal tt
      (World (fs answers_no)
         (metadata {["producer" := "X"; "creator" := "Y"]}) []
         ["Existing metadata value found in the config file:";
          "Producer: X";
          "Do you want to use this value? (y/n): ";
          "Using existing metadata value.";
          "Existing metadata value found in the config file:";
          "Creator: Y";
          "Do you want to use this value? (y/n): ";
          "Using existing metadata value."]).
Proof.
  destruct (C10_only_n_declines config_ini "X" "Y" answers_no
              (final (config_read config_ini answers_no)))
    as (Hiff & Hproducer & Hcreator).
  - vm_compute. reflexivity.
  - vm_compute. reflexivity.
  - vm_compute. reflexivity.
  - split; [exact (Hiff "no") |]. split.
    + destruct (Hproducer "no" ["maybe"]) as (Hkeep & _);
        [reflexivity | reflexivity |].
      rewrite Hkeep; [| discriminate | discriminate].
      reflexivity.
    + destruct (Hcreator "maybe" []
                  (Path config_ini)
                  (final (resolve_value "Producer" "X" (Path config_ini)
                            (final (config_read config_ini answers_no))))
                  "Y") as (Hkeep & _).
      * vm_compute. reflexivity.
      * reflexivity.
      * vm_compute. reflexivity.
      * vm_compute. reflexivity.
      * rewrite Hkeep; [| discriminate | discriminate].
        vm_compute. reflexivity.
Defined.

(** C2 at a failing input.  Producer and Creator are stored as ["X"] and
    ["Y"]; the operator declines both and enters ["P2"] and ["C2"].  The
    Producer replacement is written; [config_file] then names the file
    object, so the [open] for the Creator replacement raises [TypeError]:
    the parser holds ["C2"], the file still holds ["Y"], and
    [update_config] does not end normally. *)
Theorem C2_second_replacement_not_persisted :
  exists w',
    update_config config_ini replaces_both = Raised TypeError w' /\
    fs w' !! config_ini =
      Some (FIni (metadata {["producer" := "P2"; "creator" := "Y"]})) /\
    config w' = metadata {["producer" := "P2"; "creator" := "C2"]} /\
    stdin w' = [].
Proof.
  eexists. split; [vm_compute; reflexivity |].
  repeat split; vm_compute; reflexivity.
Qed.

(** C5 at a failing input.  Only Creator is stored; the operator enters a
    Producer, which is written, then declines the Creator and enters
    ["C2"].  [config.set] changes the Creator in the parser, the [open]
    that should rewrite the file raises [TypeError], and the change is
    left unwritten: the file holds the old Creator. *)
Theorem C5_change_left_unwritten :
  exists w',
    update_config config_ini enters_then_replaces = Raised TypeError w' /\
    ConfigParser.raw (config w') "Metadata" "Creator" = Some "C2" /\
    fs w' !! config_ini =
      Some (FIni (metadata {["producer" := "P"; "creator" := "Y"]})) /\
    stdout w' =
      ["Enter the value for Producer: "; "Metadata added to config";
       "Existing metadata value found in the config file:"; "Creator: Y";
       "Do you want to use this value? (y/n): ";
       "Enter the value for Creator: "].
Proof.
  eexists. split; [vm_compute; reflexivity |].
  repeat split; vm_compute; reflexivity.
Qed.

(** C7 at a failing input.  Without a configuration file the program
    creates one with an empty [Metadata] section; the first resolution
    then stores and writes the Producer, and raises [TypeError] at the
    [open] for the Creator: the run ends there and the file holds the
    Producer key only. *)
Theorem C7_first_run_writes_producer_only :
  (exists w0,
     (create_folders root ;; new_config ;; create_config config_ini) first_run =
       Normal tt w0 /\
     fs w0 !! config_ini = Some (FIni (metadata ∅))) /\
  (exists w',
     main overlay root [] first_run = Raised TypeError w' /\
     fs w' !! config_ini = Some (FIni (metadata {["producer" := "P"]})) /\
     ConfigParser.raw (metadata {["producer" := "P"]}) "Metadata" "Creator" =
       None /\
     config w' = metadata {["producer" := "P"; "creator" := "C"]}).
Proof.
  split.
  - eexists. split; vm_compute; reflexivity.
  - eexists. split; [vm_compute; reflexivity |].
    repeat split; vm_compute; reflexivity.
Qed.

(** The listing [notes.txt], [a.pdf]: only [a.pdf] is processed. *)
Lemma C3_witness :
  main_loop overlay "/app/input" "/app/output" ["notes.txt"; "a.pdf"] batch =
    process_each overlay "/app/input" "/app/output" ["a.pdf"] batch /\
  main_loop overlay "/app/input" "/app/output" ["notes.txt"; "a.pdf"] batch =
    main_loop overlay "/app/input" "/app/output" ["a.pdf"] batch /\
  fs (final (main_loop overlay "/app/input" "/app/output"
               ["notes.txt"; "a.pdf"] batch))
    !! path_join "/app/output" "notes.txt" =
  fs batch !! path_join "/app/output" "notes.txt".
Proof.
  destruct (C3_batch_selects_pdf_suffix overlay "/app/input" "/app/output"
              ["notes.txt"; "a.pdf"]) as (Hspec & Hsel & Hskip & Hnone & _).
  split; [apply Hsel |]. split.
  - apply Hskip. rewrite <- Hspec. vm_compute. discriminate.
  - apply Hnone.
    + repeat constructor.
    + reflexivity.
    + rewrite <- Hspec. vm_compute. discriminate.
Defined.

(** The two-page [a.pdf] replaces the older output of that name. *)
Lemma C4_witness :
  exists w' out,
    process_pdf overlay (path_join "/app/input" "a.pdf") "/app/output" batch =
      Normal tt w' /\
    fs w' !! path_join "/app/output" "a.pdf" = Some (FPdf out) /\
    basename (path_join "/app/output" "a.pdf") =
      basename (path_join "/app/input" "a.pdf") /\
    List.length (pages out) = List.length (pages a_pdf) /\
    info out !! "/Producer" = Some "X" /\
    info out !! "/Creator" = Some "" /\
    (ConfigParser.raw (config batch) "Metadata" "Producer" = None ->
     "X" = "") /\
    (ConfigParser.raw (config batch) "Metadata" "Creator" = None ->
     "" = "") /\
    (forall other, other <> path_join "/app/output" "a.pdf" ->
                   fs w' !! other = fs batch !! other).
Proof.
  apply (C4_process_pdf_output overlay "/app/input" "/app/output" "a.pdf"
           "X" "" batch a_pdf).
  - reflexivity.
  - vm_compute. reflexivity.
  - vm_compute. discriminate.
  - vm_compute. reflexivity.
  - vm_compute. reflexivity.
Defined.

(** [bad.pdf] is no PDF: the loop stops there and [a.pdf] is not reached. *)
Lemma C6_witness :
  exists e,
    (e = FileNotFoundError \/ e = IsADirectoryError \/ e = PdfReadError) /\
    process_pdf overlay (path_join (path_join root "input") "bad.pdf")
      (path_join root "output") (final (main_setup root broken)) =
      Raised e (final (main_setup root broken)) /\
    main_loop overlay (path_join root "input") (path_join root "output")
      (["notes.txt"] ++ "bad.pdf" :: ["a.pdf"])
      (final (main_setup root broken)) =
      Raised e (final (main_setup root broken)) /\
    main overlay root (["notes.txt"] ++ "bad.pdf" :: ["a.pdf"]) broken =
      Raised e (final (main_setup root broken)).
Proof.
  apply (C6_failure_aborts_batch overlay root "bad.pdf" ["notes.txt"] ["a.pdf"]
           broken (final (main_setup root broken))
           (final (main_setup root broken))).
  - vm_compute. reflexivity.
  - vm_compute. reflexivity.
  - vm_compute. reflexivity.
  - intros doc. vm_compute. discriminate.
Defined.

(** Two different worlds that resolve the same two values. *)
Lemma C8_witness :
  exists out1 out2,
    fs (final (process_pdf overlay "/app/input/a.pdf" "/app/output" batch))
      !! path_join "/app/output" (basename "/app/input/a.pdf") =
      Some (FPdf out1) /\
    fs (final (process_pdf overlay "/app/input/a.pdf" "/app/output"
                 other_batch))
      !! path_join "/app/output" (basename "/app/input/a.pdf") =
      Some (FPdf out2) /\
    info out1 = info out2 /\
    info out1 !! "/Producer" = info out2 !! "/Producer" /\
    info out1 !! "/Creator" = info out2 !! "/Creator".
Proof.
  apply (C8_metadata_determined_by_config overlay "/app/input/a.pdf"
           "/app/output" batch other_batch).
  - vm_compute. reflexivity.
  - vm_compute. reflexivity.
  - vm_compute. reflexivity.
  - vm_compute. reflexivity.
Defined.

(** The first page of [a.pdf] comes out with its content drawn twice. *)
Lemma C9_witness :
  exists out,
    fs (final (process_pdf overlay "/app/input/a.pdf" "/app/output" batch))
      !! path_join "/app/output" (basename "/app/input/a.pdf") =
      Some (FPdf out) /\
    pages out !! 0 = Some ["page one"; "page one"] /\
    pages out !! 0 <> Some ["page one"].
Proof.
  destruct (C9_pages_are_overlaid overlay "/app/input/a.pdf" "/app/output"
              batch
              (final (process_pdf overlay "/app/input/a.pdf" "/app/output"
                        batch))
              a_pdf) as (out & Hout & _ & Hpages).
  - vm_compute. reflexivity.
  - vm_compute. reflexivity.
  - exists out. split; [exact Hout |].
    destruct (Hpages 0 ["page one"] ["page one"]) as (Hpage & _ & Hdiff).
    + reflexivity.
    + exists a_pdf. split; [vm_compute; reflexivity | reflexivity].
    + split; [exact Hpage |]. apply Hdiff. vm_compute. discriminate.
Defined.

(** The example of the specification, end to end: with both values stored
    and accepted, the program ends normally, [a.pdf] is in the output
    folder with its two pages and the two values, [notes.txt] is not. *)
Example main_on_the_specification_example :
  exists w' out,
    main overlay root ["a.pdf"; "notes.txt"] whole_run = Normal tt w' /\
    fs w' !! "/app/output/a.pdf" = Some (FPdf out) /\
    List.length (pages out) = 2 /\
    info out = {["/Producer" := "X"; "/Creator" := "Y"]} /\
    fs w' !! "/app/output/notes.txt" = None /\
    fs w' !! config_ini = fs whole_run !! config_ini.
Proof.
  eexists _, _. split; [vm_compute; reflexivity |].
  split; [vm_compute; reflexivity |].
  repeat split; vm_compute; reflexivity.
Qed.

End Runs.

(** * Further properties of the script *)

(** ** Folder setup *)

Section CreateFolders.

Context {page : Type}.
Implicit Types w : world page.

(** [makedirs] adds a directory where nothing is and changes nothing
    else. *)
Lemma makedirs_inv path w u w' :
  makedirs path w = Normal u w' ->
  fs w' !! path = Some FDir /\
  (forall q, q <> path -> fs w' !! q = fs w !! q) /\
  (forall q n, fs w !! q = Some n -> fs w' !! q = Some n) /\
  config w' = config w /\ stdin w' = stdin w /\ stdout w' = stdout w.
Proof.
  unfold makedirs. destruct (fs w !! path) as [[] |] eqn:E;
    try discriminate; intros [= _ <-]; simpl.
  - repeat split; auto.
  - split; [apply lookup_insert_eq |].
    split; [intros q Hq; now rewrite lookup_insert_ne |].
    split; [| auto].
    intros q n Hq. rewrite lookup_insert_ne; [exact Hq | congruence].
Qed.

Lemma makedirs_existing path w :
  fs w !! path = Some FDir -> makedirs path w = Normal tt w.
Proof. unfold makedirs. now intros ->. Qed.

(** [makedirs] raises when the path holds a file; otherwise it ends
    normally, and the paths that hold a file are the same afterwards. *)
Lemma makedirs_cases path w :
  ((exists n, fs w !! path = Some n /\ n <> FDir) /\
   makedirs path w = Raised FileExistsError w)
  \/
  (~ (exists n, fs w !! path = Some n /\ n <> FDir) /\
   exists w',
     makedirs path w = Normal tt w' /\
     forall q, (exists n, fs w' !! q = Some n /\ n <> FDir) <->
               (exists n, fs w !! q = Some n /\ n <> FDir)).
Proof.
  unfold makedirs. destruct (fs w !! path) as [[| c | d |] |] eqn:E.
  - right. split; [intros (n & [= <-] & Hn); now destruct Hn |].
    now exists w.
  - left. split; [eexists; split; [reflexivity | discriminate] | reflexivity].
  - left. split; [eexists; split; [reflexivity | discriminate] | reflexivity].
  - left. split; [eexists; split; [reflexivity | discriminate] | reflexivity].
  - right. split; [intros (n & [=] & _) |].
    eexists. split; [reflexivity |]. intros q. simpl.
    destruct (decide (q = path)) as [-> | Hq].
    + rewrite lookup_insert_eq, E. split.
      * intros (n & [= <-] & Hn). now destruct Hn.
      * intros (n & [=] & _).
    + now rewrite lookup_insert_ne.
Qed.

(** X1.  When [create_folders] ends normally it returns the three folder
    paths, each of them is a directory afterwards, every path keeps what
    it held (nothing is deleted or emptied), no path other than the three
    changes, and parser and console are untouched. *)
Theorem create_folders_effect (root : string) w folders w' :
  create_folders root w = Normal folders w' ->
  folders = (path_join root "output", path_join root "input",
             path_join root "config") /\
  fs w' !! path_join root "output" = Some FDir /\
  fs w' !! path_join root "input" = Some FDir /\
  fs w' !! path_join root "config" = Some FDir /\
  (forall q n, fs w !! q = Some n -> fs w' !! q = Some n) /\
  (forall q, q <> path_join root "output" -> q <> path_join root "input" ->
             q <> path_join root "config" -> fs w' !! q = fs w !! q) /\
  config w' = config w /\ stdin w' = stdin w /\ stdout w' = stdout w.
Proof.
  unfold create_folders. intros H.
  apply bind_normal_inv in H as (u1 & w1 & H1 & H).
  apply bind_normal_inv in H as (u2 & w2 & H2 & H).
  apply bind_normal_inv in H as (u3 & w3 & H3 & H).
  injection H as <- <-.
  apply makedirs_inv in H1 as (Ho & Hf1 & Hk1 & Hc1 & Hi1 & Ho1).
  apply makedirs_inv in H2 as (Hi & Hf2 & Hk2 & Hc2 & Hi2 & Ho2).
  apply makedirs_inv in H3 as (Hc & Hf3 & Hk3 & Hc3 & Hi3 & Ho3).
  split; [reflexivity |].
  split; [auto |]. split; [auto |]. split; [exact Hc |].
  split; [auto |].
  split; [intros q Hq1 Hq2 Hq3; rewrite Hf3, Hf2, Hf1 by assumption; auto |].
  repeat split; congruence.
Qed.

(** X2.  [create_folders] is idempotent: run again in the world it left, it
    returns the same paths and changes nothing. *)
Theorem create_folders_idempotent (root : string) w folders w' :
  create_folders root w = Normal folders w' ->
  create_folders root w' = Normal folders w'.
Proof.
  intros H. pose proof H as H'. unfold create_folders in H'.
  apply bind_normal_inv in H' as (u1 & w1 & H1 & H').
  apply bind_normal_inv in H' as (u2 & w2 & H2 & H').
  apply bind_normal_inv in H' as (u3 & w3 & H3 & H').
  injection H' as <- <-.
  apply makedirs_inv in H1 as (Ho & _).
  apply makedirs_inv in H2 as (Hi & _ & Hk2 & _).
  apply makedirs_inv in H3 as (Hc & _ & Hk3 & _).
  unfold create_folders, bind.
  rewrite (makedirs_existing (path_join root "output") w3) by auto.
  rewrite (makedirs_existing (path_join root "input") w3) by auto.
  rewrite (makedirs_existing (path_join root "config") w3) by auto.
  reflexivity.
Qed.

(** X3.  [create_folders] raises exactly when one of the three paths holds
    something that is not a directory; the exception is then
    [FileExistsError]. *)
Theorem create_folders_raises_iff (root : string) w :
  ((exists w', create_folders root w = Raised FileExistsError w') <->
   (exists p n,
      p ∈ [path_join root "output"; path_join root "input";
           path_join root "config"] /\
      fs w !! p = Some n /\ n <> FDir)) /\
  (forall e w', create_folders root w = Raised e w' -> e = FileExistsError).
Proof.
  unfold create_folders, bind.
  destruct (makedirs_cases (path_join root "output") w)
    as [[Hb ->] | [Hn1 (w1 & -> & Hsame1)]].
  { split; [| now intros e w' [= <- _]].
    split; [| now eauto].
    intros _. destruct Hb as (n & Hn). exists (path_join root "output"), n.
    split; [repeat constructor | exact Hn]. }
  destruct (makedirs_cases (path_join root "input") w1)
    as [[Hb ->] | [Hn2 (w2 & -> & Hsame2)]].
  { split; [| now intros e w' [= <- _]].
    split; [| now eauto].
    intros _. destruct (proj1 (Hsame1 _) Hb) as (n & Hn).
    exists (path_join root "input"), n. split; [repeat constructor | exact Hn]. }
  destruct (makedirs_cases (path_join root "config") w2)
    as [[Hb ->] | [Hn3 (w3 & -> & Hsame3)]].
  { split; [| now intros e w' [= <- _]].
    split; [| now eauto].
    intros _. destruct (proj1 (Hsame1 _) (proj1 (Hsame2 _) Hb)) as (n & Hn).
    exists (path_join root "config"), n. split; [repeat constructor | exact Hn]. }
  split; [| discriminate]. split; [intros (w' & [=]) |].
  intros (p & n & Hp & Hn). exfalso.
  assert (Hany : exists n, fs w !! p = Some n /\ n <> FDir) by eauto.
  apply elem_of_cons in Hp as [-> | Hp]; [exact (Hn1 Hany) |].
  apply elem_of_cons in Hp as [-> | Hp];
    [exact (Hn2 (proj2 (Hsame1 _) Hany)) |].
  apply elem_of_cons in Hp as [-> | Hp]; [| now apply elem_of_nil in Hp].
  exact (Hn3 (proj2 (Hsame2 _) (proj2 (Hsame1 _) Hany))).
Qed.

End CreateFolders.

(** ** Configuration resolution, function by function *)

Section UpdateConfigMore.

Context {page : Type}.
Implicit Types w : world page.

(** The storing statements when [config.set] refuses the value: the line is
    consumed, nothing is stored, nothing is written. *)
Lemma store_refused key msg config_file w value rest e :
  stdin w = value :: rest ->
  ConfigParser.set (config w) "Metadata" key value = Err e ->
  (value <- input ("Enter the value for " +:+ key +:+ ": ") ;;
   config_set "Metadata" key value ;;
   fp <- open_w config_file ;;
   config_write fp ;;
   print msg ;;
   ret (FileObject fp)) w =
    Raised e
      (World (fs w) (config w) rest
         (stdout w ++ ["Enter the value for " +:+ key +:+ ": "])).
Proof.
  intros Hstdin Hset.
  unfold bind at 1. unfold input. simpl stdin. rewrite Hstdin.
  unfold bind at 1. unfold config_set. simpl config. rewrite Hset.
  reflexivity.
Qed.

(** The storing statements at the end of the input. *)
Lemma store_eof key msg config_file w :
  stdin w = [] ->
  (value <- input ("Enter the value for " +:+ key +:+ ": ") ;;
   config_set "Metadata" key value ;;
   fp <- open_w config_file ;;
   config_write fp ;;
   print msg ;;
   ret (FileObject fp)) w =
    Raised EOFError
      (with_stdout w (stdout w ++ ["Enter the value for " +:+ key +:+ ": "])).
Proof.
  intros Hstdin. unfold bind at 1. unfold input. simpl stdin.
  now rewrite Hstdin.
Qed.

(** The ways in which [update_config] ends normally: both values kept, or
    exactly one of them stored. *)
Lemma update_config_inv config_file w w' :
  update_config config_file w = Normal tt w' ->
  exists w0 producer creator,
    config_read config_file w = Normal tt w0 /\
    ConfigParser.get (config w0) "Metadata" "Producer" "" = Ok producer /\
    ConfigParser.get (config w0) "Metadata" "Creator" "" = Ok creator /\
    ((truthy producer = true /\ truthy creator = true /\
      fs w' = fs w /\ config w' = config w0)
     \/
     (truthy producer = true /\
      exists value c',
        value ∈ stdin w /\
        ConfigParser.set (config w0) "Metadata" "Creator" value = Ok c' /\
        config w' = c' /\ fs w' = <[config_file := FIni (ConfigParser.written c')]> (fs w))
     \/
     (truthy creator = true /\
      exists value c',
        value ∈ stdin w /\
        ConfigParser.set (config w0) "Metadata" "Producer" value = Ok c' /\
        config w' = c' /\ fs w' = <[config_file := FIni (ConfigParser.written c')]> (fs w))).
Proof.
  intros H. rewrite update_config_blocks in H.
  apply bind_normal_inv in H as ([] & w0 & Hread & H).
  apply bind_normal_inv in H as (producer & w0' & Hgp & H).
  apply bind_normal_inv in H as (creator & w0'' & Hgc & H).
  apply bind_normal_inv in H as (cf1 & w1 & Hp & H).
  apply bind_normal_inv in H as (cf2 & w2 & Hc & H).
  injection H as <-.
  apply config_get_inv in Hgp as (Hgp & ->).
  apply config_get_inv in Hgc as (Hgc & ->).
  exists w0, producer, creator. repeat (split; [assumption |]).
  apply config_read_inv in Hread as (Hfs0 & Hin0).
  apply resolve_value_inv in Hp
    as [(Htp & -> & Hf1 & Hc1 & answer & Hs1 & _)
       | (p & vp & c1 & [= <-] & -> & Hvp & Hset1 & Hf1 & Hc1)].
  - apply resolve_value_inv in Hc
      as [(Htc & _ & Hf2 & Hc2 & _)
         | (p & vc & c2 & [= <-] & _ & Hvc & Hset2 & Hf2 & Hc2)].
    + left. repeat split; congruence.
    + right. left. split; [exact Htp |]. exists vc, c2.
      rewrite Hc1 in Hset2.
      split; [rewrite <- Hin0, Hs1; set_solver |].
      repeat split; congruence.
  - apply resolve_value_inv in Hc
      as [(Htc & _ & Hf2 & Hc2 & _) | (p' & _ & _ & Hcf & _)];
      [| discriminate Hcf].
    right. right. split; [exact Htc |]. exists vp, c1.
    split; [now rewrite <- Hin0 |].
    repeat split; congruence.
Qed.

End UpdateConfigMore.

Section UpdateConfigProperties.

Context {page : Type}.
Implicit Types w : world page.


(** X5.  When neither value is stored (both read as the empty string),
    [update_config] cannot end normally, whatever the operator types: it
    raises. *)
Theorem update_config_both_unset_raises (config_file : string) w w0 :
  config_read config_file w = Normal tt w0 ->
  ConfigParser.get (config w0) "Metadata" "Producer" "" = Ok "" ->
  ConfigParser.get (config w0) "Metadata" "Creator" "" = Ok "" ->
  exists e w', update_config config_file w = Raised e w'.
Proof.
  intros Hread Hp Hc.
  destruct (update_config config_file w) as [[] w' | e w'] eqn:H; [| eauto].
  apply update_config_inv in H
    as (w0' & producer & creator & Hread' & Hp' & Hc' & Hcases).
  rewrite Hread in Hread'. injection Hread' as <-.
  rewrite Hp in Hp'. injection Hp' as <-.
  rewrite Hc in Hc'. injection Hc' as <-.
  destruct Hcases as [(Ht & _) | [(Ht & _) | (Ht & _)]]; discriminate Ht.
Qed.



(** X8.  With both values stored and both accepted at the prompts,
    [update_config] ends normally without writing: the file system is
    untouched and the parser is as [config.read] left it. *)
Theorem update_config_accepts_both
    (config_file producer creator answer1 answer2 : string)
    (rest : list string) w w0 :
  config_read config_file w = Normal tt w0 ->
  ConfigParser.get (config w0) "Metadata" "Producer" "" = Ok producer ->
  truthy producer = true ->
  ConfigParser.get (config w0) "Metadata" "Creator" "" = Ok creator ->
  truthy creator = true ->
  stdin w = answer1 :: answer2 :: rest ->
  answer1 <> "n" -> answer1 <> "N" -> answer2 <> "n" -> answer2 <> "N" ->
  update_config config_file w =
    Normal tt
      (World (fs w) (config w0) rest
         (stdout w ++ ["Existing metadata value found in the config file:";
                       "Producer: " +:+ producer;
                       "Do you want to use this value? (y/n): ";
                       "Using existing metadata value.";
                       "Existing metadata value found in the config file:";
                       "Creator: " +:+ creator;
                       "Do you want to use this value? (y/n): ";
                       "Using existing metadata value."])).
Proof.
  intros Hread Hp Htp Hc Htc Hstdin Hn1 HN1 Hn2 HN2.
  rewrite (update_config_after_read _ _ _ _ _ Hread Hp Hc).
  rewrite (config_read_frame _ _ _ _ Hread).
  destruct w as [f c i o]. simpl in *. subst i.
  unfold bind at 1.
  rewrite (resolve_value_asked _ _ producer answer1 (answer2 :: rest))
    by (simpl; auto).
  destruct (String.eqb (lower answer1) "n") eqn:E1.
  { apply confirm_declines in E1 as [E | E]; contradiction. }
  cbv [bind print ret]. simpl.
  rewrite (resolve_value_asked _ _ creator answer2 rest) by (simpl; auto).
  destruct (String.eqb (lower answer2) "n") eqn:E2.
  { apply confirm_declines in E2 as [E | E]; contradiction. }
  cbv [bind print ret]. simpl. now rewrite <- !app_assoc.
Qed.

(** X9.  When the parser has no [Metadata] section after [config.read]
    (the file exists but is empty, say), the first line the operator
    types, if [set] accepts it, makes [config.set] raise
    [NoSectionError]: nothing is stored and nothing is written. *)
Theorem update_config_without_section
    (config_file value : string) (rest : list string) w w0 :
  config_read config_file w = Normal tt w0 ->
  config w0 !! "Metadata" = None ->
  stdin w = value :: rest ->
  ConfigParser.before_set value = true ->
  update_config config_file w =
    Raised NoSectionError
      (World (fs w) (config w0) rest
         (stdout w ++ ["Enter the value for Producer: "])).
Proof.
  intros Hread Hsection Hstdin Hvalue.
  assert (Hget : forall key,
             ConfigParser.get (config w0) "Metadata" key "" = Ok "")
    by (intros key; unfold ConfigParser.get; now rewrite Hsection).
  rewrite (update_config_after_read _ _ _ _ _ Hread (Hget _) (Hget _)).
  rewrite (config_read_frame _ _ _ _ Hread).
  destruct w as [f c i o]. simpl in *. subst i.
  unfold bind at 1. unfold resolve_value at 1. cbn [truthy].
  rewrite (store_refused _ _ _ _ value rest NoSectionError); [reflexivity.. |].
  simpl. unfold ConfigParser.set. now rewrite Hvalue, Hsection.
Qed.

(** X10.  A line that [set] does not accept (a percent sign that neither
    is doubled nor starts a reference, as in ["100%"]) typed for a
    Producer that is not stored makes [config.set] raise [ValueError]:
    nothing is stored and nothing is written. *)
Theorem update_config_refuses_percent
    (config_file value creator : string) (rest : list string) w w0 :
  config_read config_file w = Normal tt w0 ->
  ConfigParser.get (config w0) "Metadata" "Producer" "" = Ok "" ->
  ConfigParser.get (config w0) "Metadata" "Creator" "" = Ok creator ->
  stdin w = value :: rest ->
  ConfigParser.before_set value = false ->
  update_config config_file w =
    Raised ValueError
      (World (fs w) (config w0) rest
         (stdout w ++ ["Enter the value for Producer: "])).
Proof.
  intros Hread Hp Hc Hstdin Hvalue.
  rewrite (update_config_after_read _ _ _ _ _ Hread Hp Hc).
  rewrite (config_read_frame _ _ _ _ Hread).
  destruct w as [f c i o]. simpl in *. subst i.
  unfold bind at 1. unfold resolve_value at 1. cbn [truthy].
  rewrite (store_refused _ _ _ _ value rest ValueError); [reflexivity.. |].
  simpl. unfold ConfigParser.set. now rewrite Hvalue.
Qed.

(** X11.  At the end of the input (no line left to read) [update_config]
    raises [EOFError] at its first prompt, having stored and written
    nothing. *)
Theorem update_config_without_input
    (config_file producer creator : string) w w0 :
  config_read config_file w = Normal tt w0 ->
  ConfigParser.get (config w0) "Metadata" "Producer" "" = Ok producer ->
  ConfigParser.get (config w0) "Metadata" "Creator" "" = Ok creator ->
  stdin w = [] ->
  exists printed,
    update_config config_file w =
      Raised EOFError (World (fs w) (config w0) [] (stdout w ++ printed)).
Proof.
  intros Hread Hp Hc Hstdin.
  rewrite (update_config_after_read _ _ _ _ _ Hread Hp Hc).
  rewrite (config_read_frame _ _ _ _ Hread).
  destruct w as [f c i o]. simpl in *. subst i.
  unfold bind at 1. unfold resolve_value at 1.
  destruct (truthy producer) eqn:Ht.
  - exists ["Existing metadata value found in the config file:";
            "Producer: " +:+ producer;
            "Do you want to use this value? (y/n): "].
    unfold bind at 1. unfold print at 1.
    unfold bind at 1. unfold config_get at 1. simpl config. rewrite Hp.
    simpl lift. unfold ret at 1.
    unfold bind at 1. unfold print at 1.
    unfold bind at 1. unfold input at 1. simpl.
    now rewrite <- !app_assoc.
  - exists ["Enter the value for Producer: "].
    now rewrite store_eof.
Qed.

End UpdateConfigProperties.

(** ** The batch, file by file *)

Section BatchProperties.

Context {page : Type}.
Variable merge_page : page -> page -> page.
Implicit Types w : world page.

(** [process_pdf] neither reads nor prints on the console and leaves the
    parser alone, however it ends. *)
Lemma process_pdf_console path output_folder w :
  config (final (process_pdf merge_page path output_folder w)) = config w /\
  stdin (final (process_pdf merge_page path output_folder w)) = stdin w /\
  stdout (final (process_pdf merge_page path output_folder w)) = stdout w.
Proof.
  destruct (process_pdf merge_page path output_folder w) as [[] w' | e w']
    eqn:E; simpl.
  - apply process_pdf_inv in E as (doc & p & c & _ & _ & _ & ->). auto.
  - apply process_pdf_raised_inv in E as ->. auto.
Qed.

(** X12.  [process_pdf] is all or nothing: when it raises (the file cannot
    be opened or read, a configuration value cannot be resolved, the output
    path is a directory), the world is exactly as before, so no output
    file has been created, emptied or replaced; when it ends normally, the
    only path whose content may differ is the output path, and parser and
    console are untouched. *)
Theorem process_pdf_all_or_nothing (path output_folder : string) w :
  (forall e w',
     process_pdf merge_page path output_folder w = Raised e w' -> w' = w) /\
  (forall w',
     process_pdf merge_page path output_folder w = Normal tt w' ->
     config w' = config w /\ stdin w' = stdin w /\ stdout w' = stdout w /\
     forall q, q <> path_join output_folder (basename path) ->
               fs w' !! q = fs w !! q).
Proof.
  split.
  - intros e w'. apply process_pdf_raised_inv.
  - intros w' H.
    apply process_pdf_inv in H as (doc & p & c & _ & _ & _ & ->). simpl.
    repeat split. intros q Hq. now rewrite lookup_insert_ne.
Qed.

(** X13.  The document [process_pdf] writes carries the two entries
    [/Producer] and [/Creator] and no other: whatever the information
    dictionary of the input held (title, author, its own producer) is not
    carried over, and PyPDF2's default producer is replaced. *)
Theorem process_pdf_drops_other_metadata (path output_folder : string) w w' :
  process_pdf merge_page path output_folder w = Normal tt w' ->
  exists out producer creator,
    fs w' !! path_join output_folder (basename path) = Some (FPdf out) /\
    ConfigParser.get (config w) "Metadata" "Producer" "" = Ok producer /\
    ConfigParser.get (config w) "Metadata" "Creator" "" = Ok creator /\
    info out !! "/Producer" = Some producer /\
    info out !! "/Creator" = Some creator /\
    (forall key, key <> "/Producer" -> key <> "/Creator" ->
                 info out !! key = None).
Proof.
  intros H.
  apply process_pdf_inv in H as (doc & p & c & _ & Hp & Hc & ->).
  eexists _, p, c. simpl.
  split; [apply lookup_insert_eq |].
  split; [exact Hp |]. split; [exact Hc |]. cbn [info].
  split; [apply lookup_insert_eq |].
  split; [now rewrite lookup_insert_ne, lookup_singleton_eq |].
  intros key HP HC.
  rewrite lookup_insert_ne by congruence.
  now rewrite lookup_singleton_ne by congruence.
Qed.

(** The loop, like [process_pdf], leaves parser and console alone. *)
Lemma main_loop_console input_folder output_folder entries w :
  config (final (main_loop merge_page input_folder output_folder entries w)) =
    config w /\
  stdin (final (main_loop merge_page input_folder output_folder entries w)) =
    stdin w /\
  stdout (final (main_loop merge_page input_folder output_folder entries w)) =
    stdout w.
Proof.
  revert w. induction entries as [|name rest IH]; intros w; [now simpl |].
  cbn [main_loop]. unfold bind.
  destruct (endswith name ".pdf").
  - pose proof (process_pdf_console
                  (path_join input_folder name) output_folder w) as Hone.
    destruct (process_pdf _ _ _ w) as [u w1 | e w1]; simpl in Hone |- *.
    + destruct (IH w1) as (H1 & H2 & H3).
      destruct Hone as (E1 & E2 & E3). rewrite H1, H2, H3. auto.
    + exact Hone.
  - unfold ret. apply IH.
Qed.

(** X14.  The batch loop never reads from or prints to the console and
    never changes the parser, however it ends, and the only paths it can
    change are [output_folder/name] for the listed names with the suffix:
    for listing names, no file of the input folder and nothing outside the
    output folder is touched. *)
Theorem main_loop_touches_outputs_only
    (input_folder output_folder : string) (entries : list string) w :
  Forall (fun name => contains "/" name = false) entries ->
  config (final (main_loop merge_page input_folder output_folder entries w)) =
    config w /\
  stdin (final (main_loop merge_page input_folder output_folder entries w)) =
    stdin w /\
  stdout (final (main_loop merge_page input_folder output_folder entries w)) =
    stdout w /\
  (forall q,
     (forall name, name ∈ entries -> endswith name ".pdf" = true ->
                   q <> path_join output_folder name) ->
     fs (final (main_loop merge_page input_folder output_folder entries w))
       !! q = fs w !! q).
Proof.
  intros Hnames.
  destruct (main_loop_console input_folder output_folder entries w)
    as (Hc & Hi & Ho).
  repeat (split; [assumption |]).
  intros q Hq. apply main_loop_frame. intros name Hin Hsuffix.
  rewrite Forall_forall in Hnames.
  rewrite (basename_path_join _ _ (Hnames _ Hin)). now apply Hq.
Qed.

(** X15.  A listing without any name ending in [".pdf"] (the empty input
    folder in particular) makes the loop end normally with the world as it
    was: nothing is written. *)
Theorem main_loop_without_pdf
    (input_folder output_folder : string) (entries : list string) w :
  Forall (fun name => endswith name ".pdf" = false) entries ->
  main_loop merge_page input_folder output_folder entries w = Normal tt w.
Proof.
  induction 1 as [|name rest Hname _ IH]; [reflexivity |].
  cbn [main_loop]. rewrite Hname. exact IH.
Qed.

(** Listing names give distinct output paths. *)
Lemma output_path_inj output_folder a b :
  contains "/" a = false -> contains "/" b = false ->
  path_join output_folder a = path_join output_folder b -> a = b.
Proof.
  intros Ha Hb. destruct (path_join_prefix output_folder) as [pre Hpre].
  rewrite (Hpre _ Ha), (Hpre _ Hb). apply append_inv_head.
Qed.

(** X19.  For a listing name (no separator in it) the output path that
    [process_pdf] computes from the joined input path is
    [output_folder/name]: joining and taking the base name give the name
    back, whatever the two folders are; and two different names never
    share an output path. *)
Theorem output_path_of_listing_name
    (input_folder output_folder name other : string) :
  contains "/" name = false ->
  contains "/" other = false ->
  path_join output_folder (basename (path_join input_folder name)) =
    path_join output_folder name /\
  basename (path_join output_folder name) = name /\
  (path_join output_folder name = path_join output_folder other ->
   name = other).
Proof.
  intros Hname Hother.
  split; [now rewrite basename_path_join |].
  split; [now apply basename_path_join |].
  now apply output_path_inj.
Qed.

(** X16.  After a batch that ends normally, every listed name with the
    suffix has its output: [output_folder/name] holds the pages that
    [input_folder/name] held when the batch started, each overlaid with
    itself, with the two resolved values as its only metadata.  No output
    is overwritten by that of another name.  (The output paths are taken
    to be no input paths, as they are for two different folders.) *)
Theorem main_loop_outputs
    (input_folder output_folder : string) (entries : list string) w w' :
  Forall (fun name => contains "/" name = false) entries ->
  (forall a b, a ∈ entries -> b ∈ entries ->
               path_join output_folder a <> path_join input_folder b) ->
  main_loop merge_page input_folder output_folder entries w = Normal tt w' ->
  forall name,
    name ∈ entries -> endswith name ".pdf" = true ->
    exists doc producer creator,
      fs w !! path_join input_folder name = Some (FPdf doc) /\
      ConfigParser.get (config w) "Metadata" "Producer" "" = Ok producer /\
      ConfigParser.get (config w) "Metadata" "Creator" "" = Ok creator /\
      fs w' !! path_join output_folder name =
        Some (FPdf (Pdf (map (fun p => merge_page p p) (pages doc))
                      {["/Producer" := producer; "/Creator" := creator]})).
Proof.
  revert w. induction entries as [|entry rest IH];
    intros w Hnames Hapart Hrun name Hin Hsuffix;
    [now apply elem_of_nil in Hin |].
  apply Forall_cons in Hnames as [Hentry Hrest].
  cbn [main_loop] in Hrun.
  apply bind_normal_inv in Hrun as (u & w1 & Hone & Hrun).
  assert (Hrest_apart : forall a b, a ∈ rest -> b ∈ rest ->
            path_join output_folder a <> path_join input_folder b)
    by (intros a b Ha Hb; apply Hapart; now constructor).
  destruct (decide (name ∈ rest)) as [Hlater | Hlast].
  - (* the name comes again later: its output is that of the later pass *)
    destruct (IH w1 Hrest Hrest_apart Hrun name Hlater Hsuffix)
      as (doc & p & c & Hdoc & Hp & Hc & Hout).
    exists doc, p, c.
    destruct (endswith entry ".pdf") eqn:E.
    + apply process_pdf_inv in Hone as (d & p' & c' & _ & _ & _ & ->).
      simpl in *. rewrite basename_path_join in Hdoc by exact Hentry.
      rewrite lookup_insert_ne in Hdoc; [auto |].
      apply Hapart; [constructor | now constructor].
    + injection Hone as _ <-. auto.
  - (* the name is this entry and does not come again *)
    apply elem_of_cons in Hin as [-> | Hin]; [| contradiction].
    rewrite Hsuffix in Hone.
    apply process_pdf_inv in Hone as (doc & p & c & Hdoc & Hp & Hc & ->).
    exists doc, p, c. repeat (split; [assumption |]).
    pose proof (main_loop_frame merge_page input_folder output_folder rest
                  (with_fs w
                     (<[path_join output_folder entry :=
                          FPdf (Pdf (map (fun p => merge_page p p) (pages doc))
                                  {["/Producer" := p; "/Creator" := c]})]>
                        (fs w)))
                  (path_join output_folder entry)) as Hframe.
    rewrite basename_path_join in Hrun by exact Hentry.
    rewrite Hrun in Hframe. simpl in Hframe.
    rewrite Hframe; [apply lookup_insert_eq |].
    intros other Hother _ Heq.
    rewrite Forall_forall in Hrest.
    rewrite (basename_path_join _ _ (Hrest _ Hother)) in Heq.
    apply output_path_inj in Heq; [| exact Hentry | exact (Hrest _ Hother)].
    subst other. contradiction.
Qed.

End BatchProperties.

(** ** The whole program *)

Section FileSystemFrame.

Context {page : Type}.
Implicit Types w : world page.

(** Two statements in sequence leave a path alone if each does. *)
Lemma frame_bind {A B} (m : M page A) (k : A -> M page B) w q :
  fs (final (m w)) !! q = fs w !! q ->
  (forall a w1, m w = Normal a w1 -> fs (final (k a w1)) !! q = fs w1 !! q) ->
  fs (final (bind m k w)) !! q = fs w !! q.
Proof.
  unfold bind. intros Hm Hk.
  destruct (m w) as [a w1 | e w1]; simpl in *; [| exact Hm].
  now rewrite (Hk a w1 eq_refl).
Qed.

Lemma print_frame s w q : fs (final (print s w)) !! q = fs w !! q.
Proof. reflexivity. Qed.

Lemma input_frame prompt w q : fs (final (input prompt w)) !! q = fs w !! q.
Proof. unfold input. now destruct w as [f c [|l i] o]. Qed.

Lemma config_get_frame section key fallback w q :
  fs (final (config_get section key fallback w)) !! q = fs w !! q.
Proof. unfold config_get. now destruct (ConfigParser.get _ _ _ _). Qed.

Lemma config_set_frame section key value w q :
  fs (final (config_set section key value w)) !! q = fs w !! q.
Proof. unfold config_set. now destruct (ConfigParser.set _ _ _ _). Qed.

Lemma config_add_section_frame section w q :
  fs (final (config_add_section section w)) !! q = fs w !! q.
Proof.
  unfold config_add_section. now destruct (ConfigParser.add_section _ _).
Qed.

Lemma config_read_final_frame filename w q :
  fs (final (config_read filename w)) !! q = fs w !! q.
Proof. unfold config_read. now destruct (fs w !! filename) as [[] |]. Qed.

Lemma makedirs_frame path w q :
  q <> path -> fs (final (makedirs path w)) !! q = fs w !! q.
Proof.
  unfold makedirs. intros Hq.
  destruct (fs w !! path) as [[] |]; simpl; try reflexivity.
  now rewrite lookup_insert_ne.
Qed.

(** Opening for writing and then writing touch the opened path only. *)
Lemma write_frame {B} binding (content : string -> M page B) w q :
  (forall p, binding = Path p -> q <> p) ->
  (forall p w1, binding = Path p ->
                fs (final (content p w1)) !! q = fs w1 !! q) ->
  fs (final ((fp <- open_w binding ;; content fp) w)) !! q = fs w !! q.
Proof.
  intros Hq Hcontent. apply frame_bind.
  - unfold open_w. destruct binding as [p | p]; [| reflexivity].
    specialize (Hq p eq_refl).
    destruct (fs w !! p) as [[] |]; simpl; try reflexivity;
      now rewrite lookup_insert_ne by congruence.
  - intros fp w1 Hopen. apply open_w_inv in Hopen as (-> & _ & _).
    now apply Hcontent.
Qed.

Lemma config_write_frame fp w q :
  q <> fp -> fs (final (config_write fp w)) !! q = fs w !! q.
Proof. intros Hq. simpl. now rewrite lookup_insert_ne. Qed.

(** The statements that store a value write the bound path only. *)
Lemma store_frame key msg binding w q :
  (forall p, binding = Path p -> q <> p) ->
  fs (final ((value <- input ("Enter the value for " +:+ key +:+ ": ") ;;
              config_set "Metadata" key value ;;
              fp <- open_w binding ;;
              config_write fp ;;
              print msg ;;
              ret (FileObject fp)) w)) !! q = fs w !! q.
Proof.
  intros Hq.
  apply frame_bind; [apply input_frame | intros value w1 _].
  apply frame_bind; [apply config_set_frame | intros u w2 _].
  apply write_frame; [exact Hq | intros p w3 Hp].
  apply frame_bind; [apply config_write_frame; now apply Hq |].
  intros u' w4 _. reflexivity.
Qed.

(** A block of [update_config] writes the bound path only, however it
    ends. *)
Lemma resolve_value_frame key current binding w q :
  (forall p, binding = Path p -> q <> p) ->
  fs (final (resolve_value key current binding w)) !! q = fs w !! q.
Proof.
  intros Hq. unfold resolve_value. destruct (truthy current).
  - apply frame_bind; [apply print_frame | intros u1 w1 _].
    apply frame_bind; [apply config_get_frame | intros shown w2 _].
    apply frame_bind; [apply print_frame | intros u2 w3 _].
    apply frame_bind; [apply input_frame | intros answer w4 _].
    destruct (String.eqb (lower answer) "n").
    + now apply store_frame.
    + reflexivity.
  - now apply store_frame.
Qed.

(** [update_config] writes no path but the configuration file, however it
    ends. *)
Lemma update_config_frame config_file w q :
  q <> config_file ->
  fs (final (update_config config_file w)) !! q = fs w !! q.
Proof.
  intros Hq. rewrite update_config_blocks.
  apply frame_bind; [apply config_read_final_frame | intros u0 w0 _].
  apply frame_bind; [apply config_get_frame | intros producer w1 _].
  apply frame_bind; [apply config_get_frame | intros creator w2 _].
  apply frame_bind.
  - apply resolve_value_frame. now intros p [= <-].
  - intros binding w3 Hblock.
    apply frame_bind; [| reflexivity].
    apply resolve_value_frame. intros p ->.
    apply resolve_value_inv in Hblock
      as [(_ & [= ->] & _) | (p' & _ & _ & _ & [=] & _)].
    exact Hq.
Qed.

(** [create_config] writes no path but the configuration file. *)
Lemma create_config_frame config_file w q :
  q <> config_file ->
  fs (final (create_config config_file w)) !! q = fs w !! q.
Proof.
  intros Hq. unfold create_config.
  apply frame_bind; [apply config_add_section_frame | intros u w1 _].
  apply write_frame; [now intros p [= <-] | intros p w2 [= <-]].
  now apply config_write_frame.
Qed.

(** [create_folders] touches the three folder paths only. *)
Lemma create_folders_frame root w q :
  q <> path_join root "output" -> q <> path_join root "input" ->
  q <> path_join root "config" ->
  fs (final (create_folders root w)) !! q = fs w !! q.
Proof.
  intros Ho Hi Hc. unfold create_folders.
  apply frame_bind; [now apply makedirs_frame | intros u1 w1 _].
  apply frame_bind; [now apply makedirs_frame | intros u2 w2 _].
  apply frame_bind; [now apply makedirs_frame | intros u3 w3 _].
  reflexivity.
Qed.

(** The statements of the main program before the loop touch the three
    folder paths and the configuration file only. *)
Lemma main_setup_frame root w q :
  q <> path_join root "output" -> q <> path_join root "input" ->
  q <> path_join root "config" ->
  q <> path_join (path_join root "config") "config.ini" ->
  fs (final (main_setup root w)) !! q = fs w !! q.
Proof.
  intros Ho Hi Hc Hf. unfold main_setup.
  apply frame_bind; [now apply create_folders_frame |].
  intros folders w1 Hfolders.
  apply create_folders_inv in Hfolders as ->.
  apply frame_bind; [reflexivity | intros u w2 _].
  apply frame_bind; [reflexivity | intros present w3 _].
  apply frame_bind.
  - destruct (negb present); [now apply create_config_frame | reflexivity].
  - intros u' w4 _. now apply update_config_frame.
Qed.

End FileSystemFrame.

Section MainProperties.

Context {page : Type}.
Variable merge_page : page -> page -> page.
Implicit Types w : world page.

(** With neither value stored, no run of [update_config] ends normally. *)
Lemma update_config_unset_not_normal config_file w w0 w' :
  config_read config_file w = Normal tt w0 ->
  ConfigParser.get (config w0) "Metadata" "Producer" "" = Ok "" ->
  ConfigParser.get (config w0) "Metadata" "Creator" "" = Ok "" ->
  update_config config_file w <> Normal tt w'.
Proof.
  intros Hread Hp Hc H.
  apply update_config_inv in H
    as (w0' & producer & creator & Hread' & Hp' & Hc' & Hcases).
  rewrite Hread in Hread'. injection Hread' as <-.
  rewrite Hp in Hp'. injection Hp' as <-.
  rewrite Hc in Hc'. injection Hc' as <-.
  destruct Hcases as [(Ht & _) | [(Ht & _) | (Ht & _)]]; discriminate Ht.
Qed.

(** [create_config] with a parser that has no [Metadata] section yet. *)
Lemma create_config_ok config_file w :
  config w !! "Metadata" = None ->
  fs w !! config_file <> Some FDir ->
  create_config config_file w =
    Normal tt
      (World
         (<[config_file :=
              FIni (ConfigParser.written (<["Metadata" := ∅]> (config w)))]>
            (fs w))
         (<["Metadata" := ∅]> (config w)) (stdin w) (stdout w)).
Proof.
  intros Hsection Hfile. unfold create_config.
  unfold bind at 1. unfold config_add_section, ConfigParser.add_section.
  rewrite Hsection.
  unfold bind at 1. rewrite open_w_ok by exact Hfile.
  unfold config_write. simpl. now rewrite insert_insert_eq.
Qed.

(** The configuration file is none of the three folders. *)
Lemma config_file_not_a_folder root name :
  name ∈ ["output"; "input"; "config"] ->
  path_join (path_join root "config") "config.ini" <> path_join root name.
Proof.
  intros Hname Heq. apply (f_equal basename) in Heq.
  rewrite basename_path_join in Heq by reflexivity.
  rewrite basename_path_join in Heq
    by (repeat (apply elem_of_cons in Hname as [-> | Hname];
                [reflexivity |]); now apply elem_of_nil in Hname).
  repeat (apply elem_of_cons in Hname as [-> | Hname]; [discriminate Heq |]).
  now apply elem_of_nil in Hname.
Qed.

(** The main program is its setup followed by its loop; nothing between
    them catches an exception. *)
Lemma main_as_sequence root listdir w :
  main merge_page root listdir w =
    (main_setup root ;;
     main_loop merge_page (path_join root "input") (path_join root "output")
       listdir) w.
Proof.
  unfold main, main_setup, bind.
  destruct (create_folders root w) as [folders w1 | e w1] eqn:Hfolders;
    [| reflexivity].
  apply create_folders_inv in Hfolders as ->.
  unfold new_config, isfile. cbn beta iota zeta.
  destruct (negb _).
  - destruct (create_config _ _) as [u w2 | e w2]; [| reflexivity].
    now destruct (update_config _ w2).
  - unfold ret. now destruct (update_config _ _).
Qed.

(** X17.  [create_config] adds an empty [Metadata] section to the parser
    and writes the whole parser to the file, replacing what the path held
    (the file holds each value without the white space around it).
    When the parser has the section already it raises
    [DuplicateSectionError] and the file is not touched; when the path is a
    directory it raises [IsADirectoryError] after the section has been
    added. *)
Theorem create_config_outcome (config_file : string) w :
  (config w !! "Metadata" = None ->
   fs w !! config_file <> Some FDir ->
   create_config config_file w =
     Normal tt
       (World
          (<[config_file :=
               FIni (ConfigParser.written (<["Metadata" := ∅]> (config w)))]>
             (fs w))
          (<["Metadata" := ∅]> (config w)) (stdin w) (stdout w))) /\
  (is_Some (config w !! "Metadata") ->
   create_config config_file w = Raised DuplicateSectionError w) /\
  (config w !! "Metadata" = None ->
   fs w !! config_file = Some FDir ->
   create_config config_file w =
     Raised IsADirectoryError
       (with_config w (<["Metadata" := ∅]> (config w)))).
Proof.
  split; [apply create_config_ok |]. split.
  - intros [d Hd]. unfold create_config, bind, config_add_section,
      ConfigParser.add_section. now rewrite Hd.
  - intros Hsection Hdir. unfold create_config, bind, config_add_section,
      ConfigParser.add_section, open_w. rewrite Hsection. simpl.
    now rewrite Hdir.
Qed.

(** The setup of a run without configuration file raises. *)
Lemma main_setup_first_run root w :
  fs w !! path_join (path_join root "config") "config.ini" = None ->
  exists e w', main_setup root w = Raised e w'.
Proof.
  intros Hnone. unfold main_setup.
  unfold bind at 1.
  destruct (create_folders root w) as [folders w1 | e w1] eqn:Hfolders;
    [| eauto].
  pose proof (create_folders_frame root w
                (path_join (path_join root "config") "config.ini")) as Hkeep.
  rewrite Hfolders in Hkeep. simpl in Hkeep.
  rewrite <- Hkeep in Hnone
    by (apply config_file_not_a_folder; repeat constructor).
  apply create_folders_inv in Hfolders as ->.
  unfold bind at 1. unfold new_config at 1.
  unfold bind at 1. unfold isfile at 1. simpl fs. rewrite Hnone. simpl negb.
  unfold bind at 1.
  rewrite create_config_ok
    by (simpl; first [apply lookup_empty | now rewrite Hnone]).
  simpl config. simpl fs.
  match goal with
  | |- exists e w', update_config ?f ?w2 = _ =>
      destruct (update_config f w2) as [[] w' | e w'] eqn:Hrun; [| eauto];
      exfalso; revert Hrun;
      apply (update_config_unset_not_normal f w2
               (with_config w2 (ConfigParser.merge (<["Metadata" := ∅]> ∅)
                                  (<["Metadata" := ∅]> ∅))))
  end.
  - unfold config_read. simpl fs. now rewrite lookup_insert_eq.
  - reflexivity.
  - reflexivity.
Qed.

(** X18.  A run that finds no configuration file never ends normally and
    processes no PDF, whatever the operator types and whatever the input
    folder holds: the program raises before its loop, and no path other
    than the three folders and the configuration file has changed. *)
Theorem main_first_run_processes_nothing
    (root : string) (listdir : list string) w :
  fs w !! path_join (path_join root "config") "config.ini" = None ->
  (exists e w', main merge_page root listdir w = Raised e w') /\
  final (main merge_page root listdir w) = final (main_setup root w) /\
  (forall q,
     q <> path_join root "output" -> q <> path_join root "input" ->
     q <> path_join root "config" ->
     q <> path_join (path_join root "config") "config.ini" ->
     fs (final (main merge_page root listdir w)) !! q = fs w !! q).
Proof.
  intros Hnone.
  destruct (main_setup_first_run root w Hnone) as (e & w' & Hsetup).
  assert (Hmain : main merge_page root listdir w = Raised e w')
    by (rewrite main_as_sequence; now apply bind_raised).
  split; [eauto |]. rewrite Hmain, Hsetup. split; [reflexivity |].
  intros q Ho Hi Hc Hf.
  pose proof (main_setup_frame root w q Ho Hi Hc Hf) as Hframe.
  now rewrite Hsetup in Hframe.
Qed.

End MainProperties.

(** ** The further properties on the example worlds *)

Section MoreRuns.

Import Demo.

(** The three folders are created in the empty file system. *)
Lemma create_folders_effect_witness :
  fs (final (create_folders root first_run)) !! path_join root "output" =
    Some FDir /\
  fs (final (create_folders root first_run)) !! path_join root "input" =
    Some FDir /\
  fs (final (create_folders root first_run)) !! path_join root "config" =
    Some FDir /\
  stdin (final (create_folders root first_run)) = stdin first_run.
Proof.
  destruct (create_folders_effect root first_run
              (path_join root "output", path_join root "input",
               path_join root "config")
              (final (create_folders root first_run)))
    as (_ & Ho & Hi & Hc & _ & _ & _ & Hin & _).
  - vm_compute. reflexivity.
  - auto.
Defined.

(** Creating the folders a second time changes nothing. *)
Lemma create_folders_idempotent_witness :
  create_folders root (final (create_folders root first_run)) =
    Normal (path_join root "output", path_join root "input",
            path_join root "config")
      (final (create_folders root first_run)).
Proof.
  apply (create_folders_idempotent root first_run).
  vm_compute. reflexivity.
Defined.


(** An empty [Metadata] section: the run raises. *)
Lemma update_config_both_unset_raises_witness :
  exists e w', update_config config_ini fresh_section = Raised e w'.
Proof.
  apply (update_config_both_unset_raises config_ini fresh_section
           (final (config_read config_ini fresh_section))).
  - vm_compute. reflexivity.
  - vm_compute. reflexivity.
  - vm_compute. reflexivity.
Defined.



(** Both values accepted, the second by an empty line: nothing is
    written. *)
Lemma update_config_accepts_both_witness :
  update_config config_ini accepts_both =
    Normal tt
      (World (fs accepts_both)
         (config (final (config_read config_ini accepts_both))) []
         (stdout accepts_both ++
            ["Existing metadata value found in the config file:";
             "Producer: " +:+ "X";
             "Do you want to use this value? (y/n): ";
             "Using existing metadata value.";
             "Existing metadata value found in the config file:";
             "Creator: " +:+ "Y";
             "Do you want to use this value? (y/n): ";
             "Using existing metadata value."])).
Proof.
  apply (update_config_accepts_both config_ini "X" "Y" "y" "" []
           accepts_both (final (config_read config_ini accepts_both))).
  - vm_compute. reflexivity.
  - vm_compute. reflexivity.
  - reflexivity.
  - vm_compute. reflexivity.
  - reflexivity.
  - reflexivity.
  - discriminate.
  - discriminate.
  - discriminate.
  - discriminate.
Defined.

(** An empty configuration file: the first value cannot be stored. *)
Lemma update_config_without_section_witness :
  update_config config_ini empty_ini =
    Raised NoSectionError
      (World (fs empty_ini)
         (config (final (config_read config_ini empty_ini))) []
         (stdout empty_ini ++ ["Enter the value for Producer: "])).
Proof.
  apply (update_config_without_section config_ini "P" [] empty_ini
           (final (config_read config_ini empty_ini))).
  - vm_compute. reflexivity.
  - vm_compute. reflexivity.
  - reflexivity.
  - vm_compute. reflexivity.
Defined.

(** The value ["100%"] is refused. *)
Lemma update_config_refuses_percent_witness :
  update_config config_ini types_percent =
    Raised ValueError
      (World (fs types_percent)
         (config (final (config_read config_ini types_percent))) []
         (stdout types_percent ++ ["Enter the value for Producer: "])).
Proof.
  apply (update_config_refuses_percent config_ini "100%" "" [] types_percent
           (final (config_read config_ini types_percent))).
  - vm_compute. reflexivity.
  - vm_compute. reflexivity.
  - vm_compute. reflexivity.
  - reflexivity.
  - vm_compute. reflexivity.
Defined.

(** Nothing to read at the confirmation prompt. *)
Lemma update_config_without_input_witness :
  exists printed,
    update_config config_ini no_input =
      Raised EOFError
        (World (fs no_input)
           (config (final (config_read config_ini no_input))) []
           (stdout no_input ++ printed)).
Proof.
  apply (update_config_without_input config_ini "X" "" no_input
           (final (config_read config_ini no_input))).
  - vm_compute. reflexivity.
  - vm_compute. reflexivity.
  - vm_compute. reflexivity.
  - reflexivity.
Defined.

(** The producer entry ["Scanner"] of [a.pdf] is not carried over. *)
Lemma process_pdf_drops_other_metadata_witness :
  exists out producer creator,
    fs (final (process_pdf overlay "/app/input/a.pdf" "/app/output" batch))
      !! path_join "/app/output" (basename "/app/input/a.pdf") =
      Some (FPdf out) /\
    ConfigParser.get (config batch) "Metadata" "Producer" "" = Ok producer /\
    ConfigParser.get (config batch) "Metadata" "Creator" "" = Ok creator /\
    info out !! "/Producer" = Some producer /\
    info out !! "/Creator" = Some creator /\
    (forall key, key <> "/Producer" -> key <> "/Creator" ->
                 info out !! key = None).
Proof.
  apply (process_pdf_drops_other_metadata overlay "/app/input/a.pdf"
           "/app/output" batch).
  vm_compute. reflexivity.
Defined.

(** The batch over [notes.txt] and [a.pdf] leaves [notes.txt] and the
    console alone. *)
Lemma main_loop_touches_outputs_only_witness :
  stdout (final (main_loop overlay "/app/input" "/app/output"
                   ["notes.txt"; "a.pdf"] batch)) = stdout batch /\
  fs (final (main_loop overlay "/app/input" "/app/output"
               ["notes.txt"; "a.pdf"] batch)) !! "/app/input/a.pdf" =
    fs batch !! "/app/input/a.pdf".
Proof.
  destruct (main_loop_touches_outputs_only overlay "/app/input" "/app/output"
              ["notes.txt"; "a.pdf"] batch) as (_ & _ & Hout & Hfs).
  - repeat constructor.
  - split; [exact Hout |]. apply Hfs.
    intros name Hin _.
    repeat (apply elem_of_cons in Hin as [-> | Hin];
            [vm_compute; discriminate |]).
    now apply elem_of_nil in Hin.
Defined.

(** A listing of text files only. *)
Lemma main_loop_without_pdf_witness :
  main_loop overlay "/app/input" "/app/output" ["notes.txt"; "a.PDF"] batch =
    Normal tt batch.
Proof.
  apply (main_loop_without_pdf overlay "/app/input" "/app/output"
           ["notes.txt"; "a.PDF"] batch).
  repeat constructor.
Defined.

(** The batch of the specification's example: [a.pdf] has its output. *)
Lemma main_loop_outputs_witness :
  exists doc producer creator,
    fs batch !! path_join "/app/input" "a.pdf" = Some (FPdf doc) /\
    ConfigParser.get (config batch) "Metadata" "Producer" "" = Ok producer /\
    ConfigParser.get (config batch) "Metadata" "Creator" "" = Ok creator /\
    fs (final (main_loop overlay "/app/input" "/app/output"
                 ["notes.txt"; "a.pdf"] batch))
      !! path_join "/app/output" "a.pdf" =
      Some (FPdf (Pdf (map (fun p => overlay p p) (pages doc))
                    {["/Producer" := producer; "/Creator" := creator]})).
Proof.
  apply (main_loop_outputs overlay "/app/input" "/app/output"
           ["notes.txt"; "a.pdf"] batch).
  - repeat constructor.
  - intros a b Ha Hb.
    repeat (apply elem_of_cons in Ha as [-> | Ha];
            [repeat (apply elem_of_cons in Hb as [-> | Hb];
                     [vm_compute; discriminate |]);
             now apply elem_of_nil in Hb |]).
    now apply elem_of_nil in Ha.
  - vm_compute. reflexivity.
  - repeat constructor.
  - reflexivity.
Defined.

(** The first run: the program raises and converts nothing. *)
Lemma main_first_run_processes_nothing_witness :
  (exists e w', main overlay root ["a.pdf"] first_run = Raised e w') /\
  final (main overlay root ["a.pdf"] first_run) =
    final (main_setup root first_run) /\
  (forall q,
     q <> path_join root "output" -> q <> path_join root "input" ->
     q <> path_join root "config" ->
     q <> path_join (path_join root "config") "config.ini" ->
     fs (final (main overlay root ["a.pdf"] first_run)) !! q =
     fs first_run !! q).
Proof.
  apply (main_first_run_processes_nothing overlay root ["a.pdf"] first_run).
  vm_compute. reflexivity.
Defined.

(** The names [a.pdf] and [b.pdf] in the folders of the program. *)
Lemma output_path_of_listing_name_witness :
  path_join "/app/output" (basename (path_join "/app/input" "a.pdf")) =
    path_join "/app/output" "a.pdf" /\
  basename (path_join "/app/output" "a.pdf") = "a.pdf" /\
  (path_join "/app/output" "a.pdf" = path_join "/app/output" "b.pdf" ->
   "a.pdf" = "b.pdf").
Proof.
  apply (output_path_of_listing_name "/app/input" "/app/output" "a.pdf" "b.pdf").
  - reflexivity.
  - reflexivity.
Defined.

End MoreRuns.
